(** * The request adapter of the frontend starter ([src/libs/api/api-fetch.ts])

    A shallow embedding of the [ApiFetch] class: the two URL composers, the
    header parser, the response and error classifiers, the seven HTTP
    operations and the auto-cancel slot of [doGet].

    The class runs on a browser platform.  What the platform supplies is
    modelled next to the code that uses it:
    - strings are [string]s of code units; [startsWith], [includes] and the
      template literals are the obvious functions on them;
    - [parseInt(s, 10)] follows ECMAScript (leading white space, optional
      sign, longest decimal prefix, [NaN] when there is no digit);
    - [Headers.get] follows the Fetch Standard (names compared without case,
      several values joined by a comma and a space);
    - [JSON.stringify], the time value of [new Date(s)] and the [URL] class
      are parameters of the adapter; the transport [fetch] and the clock are
      given to each call. *)

From Stdlib Require Import String Ascii List ZArith NArith Bool Lia DecimalString.
Import ListNotations.
Local Open Scope string_scope.
Local Open Scope Z_scope.

(** ** JavaScript values the adapter handles *)

(** A thrown value: an instance of [Error] (with its [name] and [message]),
    or any other value. *)
Inductive thrown : Type :=
| ErrorObj (name message : string)
| NonError (description : string).

(** The completion of an expression or of an awaited promise: a value, or an
    exception (a rejection, for a promise). *)
Inductive completion (A : Type) : Type :=
| Return (a : A)
| Throw (e : thrown).
Arguments Return {A} a.
Arguments Throw {A} e.

(** A number as [parseInt] and [Date.prototype.getTime] produce it: an
    integer or [NaN].  The integer is the mathematical value; the
    JavaScript number is the double nearest to it, which is the integer
    itself up to 2^53 in magnitude and has its sign beyond.  The code only
    tests these numbers for [NaN] and for their sign, and subtracts two
    time values. *)
Inductive jsnumber : Type :=
| NaN
| Num (z : Z).

Definition isNaN (v : jsnumber) : bool :=
  match v with NaN => true | Num _ => false end.

(** [v >= 0]: false on [NaN]. *)
Definition ge0 (v : jsnumber) : bool :=
  match v with NaN => false | Num z => 0 <=? z end.

(** [a - b]: [NaN] when an operand is. *)
Definition minus (a b : jsnumber) : jsnumber :=
  match a, b with
  | Num x, Num y => Num (x - y)
  | _, _ => NaN
  end.

(** A decoded body: what [response.json()] or [response.text()] yields. *)
#[local] Unset Elimination Schemes.
Inductive JSONValue : Type :=
| JNull
| JBool (b : bool)
| JNumber (z : Z)
| JString (s : string)
| JArray (items : list JSONValue)
| JObject (members : list (string * JSONValue)).
#[local] Set Elimination Schemes.

(** ** String operations *)

Definition startsWith (s prefix : string) : bool := String.prefix prefix s.

Fixpoint includes (s sub : string) : bool :=
  String.prefix sub s ||
  match s with
  | EmptyString => false
  | String _ rest => includes rest sub
  end.

(** [s.includes(c)] for a single character. *)
Definition has (c : ascii) (s : string) : bool := includes s (String c EmptyString).

(** The character U+0022 and a string between two of them. *)
Definition doubleQuote : ascii := ascii_of_nat 34.

Definition quoted (s : string) : string :=
  String doubleQuote (s ++ String doubleQuote EmptyString).

(** [`${n}`] for a non-negative integer [n]. *)
Definition decimal (n : N) : string := NilZero.string_of_uint (N.to_uint n).

(** Truthiness of an optional string: [undefined] and [''] are falsy. *)
Definition truthy (o : option string) : option string :=
  match o with
  | Some EmptyString => None
  | other => other
  end.

(** *** [parseInt(s, 10)] *)

(** [StrWhiteSpaceChar] among the code units a header value can hold. *)
Definition isWhiteSpace (c : ascii) : bool :=
  let n := nat_of_ascii c in
  ((9 <=? n) && (n <=? 13) || (n =? 32) || (n =? 160))%nat.

Fixpoint trimStart (s : string) : string :=
  match s with
  | String c rest => if isWhiteSpace c then trimStart rest else s
  | EmptyString => s
  end.

Definition digitValue (c : ascii) : option Z :=
  let n := nat_of_ascii c in
  if ((48 <=? n) && (n <=? 57))%nat then Some (Z.of_nat (n - 48)) else None.

(** The mathematical value of the longest prefix of decimal digits; [seen]
    tells whether a digit has been read. *)
Fixpoint digitsPrefix (s : string) (acc : Z) (seen : bool) : jsnumber :=
  match s with
  | String c rest =>
      match digitValue c with
      | Some d => digitsPrefix rest (10 * acc + d) true
      | None => if seen then Num acc else NaN
      end
  | EmptyString => if seen then Num acc else NaN
  end.

Definition negate (v : jsnumber) : jsnumber :=
  match v with NaN => NaN | Num z => Num (- z) end.

Definition parseInt10 (s : string) : jsnumber :=
  match trimStart s with
  | String "-" rest => negate (digitsPrefix rest 0 false)
  | String "+" rest => digitsPrefix rest 0 false
  | t => digitsPrefix t 0 false
  end.

(** *** [Headers.get] *)

Definition lowerChar (c : ascii) : ascii :=
  let n := nat_of_ascii c in
  if ((65 <=? n) && (n <=? 90))%nat then ascii_of_nat (n + 32) else c.

Fixpoint lower (s : string) : string :=
  match s with
  | EmptyString => EmptyString
  | String c rest => String (lowerChar c) (lower rest)
  end.

Definition Headers : Type := list (string * string).

Definition headerValues (h : Headers) (name : string) : list string :=
  map snd (filter (fun kv => lower (fst kv) =? lower name)%string h).

(** [headers.get(name)]: [null] when no header has that name. *)
Definition Headers_get (h : Headers) (name : string) : option string :=
  match headerValues h name with
  | [] => None
  | v :: vs => Some (String.concat ", " (v :: vs))
  end.

(** ** The [URL] class

    [composePath] builds a [URL] object, appends to its [searchParams] and
    serialises it.  The class is a parameter of the adapter. *)
Record URLClass : Type := {
  URL : Type;
  (** [new URL(s)]: [None] when the constructor throws its [TypeError]. *)
  URL_new : string -> option URL;
  (** [u.searchParams.append(name, value)]. *)
  URL_append : URL -> string -> string -> URL;
  (** [u.toString()]. *)
  URL_toString : URL -> string
}.

(** The [TypeError] of [new URL]; its message text depends on the engine. *)
Definition InvalidURL : thrown := ErrorObj "TypeError" "Invalid URL".

(** *** A reference instance: plain http(s) URLs

    [PlainURL] follows the URL Standard on the strings
    [http(s)://host[:port][/path][?query][#fragment]] in printable ASCII
    without ['%'], with a lower-case host of labels that start with a letter,
    and a path of letters, digits and [/ _ . -] without dot segments.  On
    these it does what the Standard does: an empty path becomes [/], a
    default or empty port is dropped, the query is re-serialised as
    [application/x-www-form-urlencoded] once a pair is appended, the
    fragment stays last.  Every other string is refused; the Standard
    refuses, among them, every string that has no scheme. *)
Module PlainURL.

Record t : Type := mk {
  scheme : string;
  host : string;
  port : option N;
  pathname : string;
  query : option string;
  fragment : option string
}.

(** Cut [s] at the first [c]. *)
Fixpoint cut (c : ascii) (s : string) : string * option string :=
  match s with
  | EmptyString => (EmptyString, None)
  | String a rest =>
      if Ascii.eqb a c then (EmptyString, Some rest)
      else let (l, r) := cut c rest in (String a l, r)
  end.

Fixpoint splitOn (c : ascii) (s : string) : list string :=
  match s with
  | EmptyString => [EmptyString]
  | String a rest =>
      if Ascii.eqb a c then EmptyString :: splitOn c rest
      else match splitOn c rest with
           | p :: ps => String a p :: ps
           | [] => [String a EmptyString]
           end
  end.

Fixpoint forallb_string (f : ascii -> bool) (s : string) : bool :=
  match s with
  | EmptyString => true
  | String c rest => f c && forallb_string f rest
  end.

Definition between (lo hi : nat) (c : ascii) : bool :=
  let n := nat_of_ascii c in ((lo <=? n) && (n <=? hi))%nat.

Definition isLower := between 97 122.
Definition isAlnum (c : ascii) : bool :=
  between 48 57 c || between 65 90 c || between 97 122 c.
Definition isPrintable := between 33 126.

Definition oneOf (set : string) (c : ascii) : bool :=
  existsb (Ascii.eqb c) (list_ascii_of_string set).

(** Labels of lower-case letters and digits, each starting with a letter,
    separated by single dots. *)
Fixpoint hostOK (s : string) (labelStart : bool) : bool :=
  match s with
  | EmptyString => negb labelStart
  | String c rest =>
      if labelStart then isLower c && hostOK rest false
      else if Ascii.eqb c "." then hostOK rest true
      else (isLower c || between 48 57 c) && hostOK rest false
  end.

Definition segmentOK (seg : string) : bool :=
  negb (seg =? ".")%string && negb (seg =? "..")%string.

Definition pathOK (p : string) : bool :=
  forallb_string (fun c => isAlnum c || oneOf "/_.-" c) p &&
  forallb segmentOK (splitOn "/" p).

Definition defaultPort (scheme : string) : N :=
  if (scheme =? "https")%string then 443%N else 80%N.

(** The port after the colon: digits only, at most 65535. *)
Definition parsePort (scheme digits : string) : option (option N) :=
  match digits with
  | EmptyString => Some None
  | _ =>
      if forallb_string (between 48 57) digits then
        match digitsPrefix digits 0 false with
        | Num z =>
            if z <=? 65535 then
              Some (if (Z.to_N z =? defaultPort scheme)%N then None
                    else Some (Z.to_N z))
            else None
        | NaN => None
        end
      else None
  end.

Definition parseAuthority (scheme auth : string) : option (string * option N) :=
  let (h, p) := cut ":" auth in
  if hostOK h true then
    match p with
    | None => Some (h, None)
    | Some digits =>
        match parsePort scheme digits with
        | Some port => Some (h, port)
        | None => None
        end
    end
  else None.

Definition hexDigit (n : nat) : ascii :=
  ascii_of_nat (if (n <? 10)%nat then 48 + n else 55 + n).

Definition percentEncode (c : ascii) : string :=
  let n := nat_of_ascii c in
  String "%" (String (hexDigit (n / 16)) (String (hexDigit (n mod 16)) EmptyString)).

Fixpoint flatMap (f : ascii -> string) (s : string) : string :=
  match s with
  | EmptyString => EmptyString
  | String c rest => f c ++ flatMap f rest
  end.

(** The fragment percent-encode set, within printable ASCII. *)
Definition encodeFragment : string -> string :=
  flatMap (fun c => if Ascii.eqb c doubleQuote || oneOf "<>`" c then percentEncode c
                    else String c EmptyString).

Definition parseRest (scheme rest : string) : option t :=
  let (beforeHash, frag) := cut "#" rest in
  let (beforeQuery, q) := cut "?" beforeHash in
  let (auth, p) := cut "/" beforeQuery in
  let path := match p with Some p' => String "/" p' | None => "/" end in
  if pathOK path then
    match parseAuthority scheme auth with
    | Some (h, port) =>
        Some (mk scheme h port path q (option_map encodeFragment frag))
    | None => None
    end
  else None.

Definition dropPrefix (n : nat) (s : string) : string :=
  substring n (String.length s - n) s.

Definition parse (s : string) : option t :=
  if forallb_string (fun c => isPrintable c && negb (Ascii.eqb c "%")) s then
    if String.prefix "http://" s then parseRest "http" (dropPrefix 7 s)
    else if String.prefix "https://" s then parseRest "https" (dropPrefix 8 s)
    else None
  else None.

(** [application/x-www-form-urlencoded] parsing of a query without
    percent escapes: pieces between ['&'], empty pieces dropped, each cut
    at its first ['='], ['+'] read as a space. *)
Definition plusToSpace : string -> string :=
  flatMap (fun c => String (if Ascii.eqb c "+" then " "%char else c) EmptyString).

Definition parsePair (piece : string) : string * string :=
  let (n, v) := cut "=" piece in
  (plusToSpace n, plusToSpace (match v with Some v' => v' | None => EmptyString end)).

Definition parseQuery (q : string) : list (string * string) :=
  map parsePair (filter (fun p => negb (p =? EmptyString)%string) (splitOn "&" q)).

Definition encodeForm : string -> string :=
  flatMap (fun c =>
    if Ascii.eqb c " " then "+"
    else if isAlnum c || oneOf "*-._" c then String c EmptyString
    else percentEncode c).

Definition serializeQuery (l : list (string * string)) : string :=
  String.concat "&" (map (fun kv => encodeForm (fst kv) ++ "=" ++ encodeForm (snd kv)) l).

Definition append (u : t) (name value : string) : t :=
  let pairs := match query u with Some q => parseQuery q | None => [] end in
  mk (scheme u) (host u) (port u) (pathname u)
     (Some (serializeQuery (pairs ++ [(name, value)]))) (fragment u).

Definition toString (u : t) : string :=
  scheme u ++ "://" ++ host u ++
  match port u with Some p => ":" ++ decimal p | None => EmptyString end ++
  pathname u ++
  match query u with Some q => "?" ++ q | None => EmptyString end ++
  match fragment u with Some f => "#" ++ f | None => EmptyString end.

(** A string that the parser returns as it is: its own serialisation,
    with no fragment, and with a query, if it has one, that is not empty
    and is its own [application/x-www-form-urlencoded] serialisation. *)
Definition normalised (s : string) : bool :=
  match parse s with
  | Some u =>
      (toString u =? s)%string &&
      match fragment u with None => true | Some _ => false end &&
      match query u with
      | None => true
      | Some q => negb (q =? EmptyString)%string &&
                  (serializeQuery (parseQuery q) =? q)%string
      end
  | None => false
  end.

(** A value that form-urlencoding leaves as it is. *)
Definition formSafe (t : string) : bool := (encodeForm t =? t)%string.

End PlainURL.

Definition plainURL : URLClass := {|
  URL := PlainURL.t;
  URL_new := PlainURL.parse;
  URL_append := PlainURL.append;
  URL_toString := PlainURL.toString
|}.

Definition withParam (s name value : string) : option string :=
  option_map (fun u => URL_toString plainURL (URL_append plainURL u name value))
             (URL_new plainURL s).


(** ** The data the adapter exchanges *)

(** [IApiConf] ([api-conf.interface.ts]). *)
Record IApiConf : Type := {
  apiUrl : string;
  token : option string
}.

(** [IApiError] ([api-response.interface.ts]). *)
Module IApiError.
Record t : Type := mk {
  message : string;
  status : option N;
  statusText : option string
}.
End IApiError.

(** [IApiResponse<T>]: an absent key is [None]. *)
Module IApiResponse.
Record t : Type := mk {
  ok : bool;
  status : option N;
  data : option JSONValue;
  error : option IApiError.t;
  total : option jsnumber;
  skipped : option jsnumber;
  link : option string;
  serverDateDiff : option jsnumber
}.
End IApiResponse.

(** [Partial<IApiResponse<unknown>>], the type of the object [parseHeaders]
    fills, and the object spread [{ ...literal, ...headers }]: every key
    present in [headers] replaces the literal's. *)
Module PartialResponse.
Record t : Type := mk {
  ok : option bool;
  status : option N;
  data : option JSONValue;
  error : option IApiError.t;
  total : option jsnumber;
  skipped : option jsnumber;
  link : option string;
  serverDateDiff : option jsnumber
}.

(** [{}] and the assignments [headers.key = value]. *)
Definition empty : t := mk None None None None None None None None.

Definition with_total (value : jsnumber) (h : t) : t :=
  mk (ok h) (status h) (data h) (error h) (Some value) (skipped h) (link h)
     (serverDateDiff h).

Definition with_skipped (value : jsnumber) (h : t) : t :=
  mk (ok h) (status h) (data h) (error h) (total h) (Some value) (link h)
     (serverDateDiff h).

Definition with_link (value : string) (h : t) : t :=
  mk (ok h) (status h) (data h) (error h) (total h) (skipped h) (Some value)
     (serverDateDiff h).

Definition with_serverDateDiff (value : jsnumber) (h : t) : t :=
  mk (ok h) (status h) (data h) (error h) (total h) (skipped h) (link h)
     (Some value).

Definition over {A : Type} (h base : option A) : option A :=
  match h with Some v => Some v | None => base end.

Definition spread (literal : IApiResponse.t) (headers : t) : IApiResponse.t :=
  IApiResponse.mk
    (match ok headers with Some b => b | None => IApiResponse.ok literal end)
    (over (status headers) (IApiResponse.status literal))
    (over (data headers) (IApiResponse.data literal))
    (over (error headers) (IApiResponse.error literal))
    (over (total headers) (IApiResponse.total literal))
    (over (skipped headers) (IApiResponse.skipped literal))
    (over (link headers) (IApiResponse.link literal))
    (over (serverDateDiff headers) (IApiResponse.serverDateDiff literal)).
End PartialResponse.

(** A [Response] of the transport: its status line, its headers, and what
    awaiting [json()] and [text()] gives (a rejection when the body does not
    decode). *)
Module Response.
Record t : Type := mk {
  status : N;
  statusText : string;
  headers : Headers;
  json : completion JSONValue;
  text : completion string
}.

(** [response.ok]: the status is in the range 200-299. *)
Definition ok (r : t) : bool := ((200 <=? status r) && (status r <=? 299))%N.
End Response.

(** Abort controllers are objects with an identity; a signal is the caller's
    own or that of a controller. *)
Definition AbortController : Type := nat.

Inductive AbortSignal : Type :=
| CallerSignal (id : nat)
| ControllerSignal (c : AbortController).

(** The second argument of [doGet]. *)
Record GetOptions : Type := {
  signal : option AbortSignal;
  useAbort : option bool
}.

(** [options?.useAbort] as a condition. *)
Definition usesAbort (options : option GetOptions) : bool :=
  match options with
  | Some o => match useAbort o with Some b => b | None => false end
  | None => false
  end.

Inductive BodyInit (File : Type) : Type :=
| TextBody (s : string)
| FormDataBody (fields : list (string * File)).
Arguments TextBody {File} s.
Arguments FormDataBody {File} fields.

(** The second argument of [fetch]. *)
Module RequestInit.
Record t (File : Type) : Type := mk {
  method : string;
  headers : Headers;
  body : option (BodyInit File);
  credentials : string;
  signal : option AbortSignal
}.
Arguments mk {File}.
Arguments method {File}.
Arguments headers {File}.
Arguments body {File}.
Arguments credentials {File}.
Arguments signal {File}.
End RequestInit.

(** What a call meets outside the adapter: the transport, as the completion
    of [await fetch(url, init)], and the clock read by [new Date()]. *)
Record World (File : Type) : Type := {
  fetch : string -> RequestInit.t File -> completion Response.t;
  now : Z
}.
Arguments fetch {File}.
Arguments now {File}.

Inductive BodyType : Type := json | text.

(** ** The class [ApiFetch] *)
Module ApiFetch.

(** The two private fields of an instance. *)
Record t : Type := mk {
  serverDateDiff : jsnumber;
  controller : option AbortController
}.

(** A fresh instance: [serverDateDiff = 0], no controller. *)
Definition new : t := mk (Num 0) None.

(** The store a method runs in: the instance, and of the heap the
    controllers created so far and those whose [abort()] was called. *)
Record Store : Type := {
  this : t;
  allocated : nat;
  aborted : list AbortController
}.

Definition init : Store := {| this := new; allocated := 0%nat; aborted := [] |}.

(** *** Methods as store transformers that may throw *)

Definition M (A : Type) : Type := Store -> completion A * Store.

Definition ret {A} (a : A) : M A := fun s => (Return a, s).

Definition bind {A B} (m : M A) (k : A -> M B) : M B :=
  fun s => match m s with
           | (Return a, s') => k a s'
           | (Throw e, s') => (Throw e, s')
           end.

(** [await p] for a promise [p] that settles as [c]. *)
Definition await {A} (c : completion A) : M A := fun s => (c, s).

(** An expression that completes as [c] without touching the store. *)
Definition eval {A} (c : completion A) : M A := fun s => (c, s).

(** [try { m } catch (e) { h e }]: the store keeps what [m] did to it. *)
Definition try_catch {A} (m : M A) (h : thrown -> M A) : M A :=
  fun s => match m s with
           | (Return a, s') => (Return a, s')
           | (Throw e, s') => h e s'
           end.

(** [try { m } finally { f }]. *)
Definition try_finally {A} (m : M A) (f : M unit) : M A :=
  fun s => let (c, s') := m s in
           match f s' with
           | (Return _, s'') => (c, s'')
           | (Throw e, s'') => (Throw e, s'')
           end.

Notation "x <- m ;; k" := (bind m (fun x => k))
  (at level 61, m at next level, right associativity).
Notation "m ;;; k" := (bind m (fun _ => k))
  (at level 61, right associativity).

Definition get_controller : M (option AbortController) :=
  fun s => (Return (controller (this s)), s).

Definition set_controller (c : option AbortController) : M unit :=
  fun s => (Return tt, {| this := mk (serverDateDiff (this s)) c;
                          allocated := allocated s; aborted := aborted s |}).

Definition get_serverDateDiff : M jsnumber :=
  fun s => (Return (serverDateDiff (this s)), s).

Definition set_serverDateDiff (d : jsnumber) : M unit :=
  fun s => (Return tt, {| this := mk d (controller (this s));
                          allocated := allocated s; aborted := aborted s |}).

(** [new AbortController()]. *)
Definition new_AbortController : M AbortController :=
  fun s => (Return (allocated s),
            {| this := this s; allocated := S (allocated s); aborted := aborted s |}).

(** [c.abort()]. *)
Definition abort (c : AbortController) : M unit :=
  fun s => (Return tt,
            {| this := this s; allocated := allocated s; aborted := c :: aborted s |}).

Section Adapter.

Context {File Body : Type}.
(** [JSON.stringify(body)]: [undefined] for a value with no JSON text; it
    throws on a cyclic value or a [BigInt]. *)
Variable JSON_stringify : Body -> completion (option string).
(** [new Date(s).getTime()]: [NaN] for an invalid date. *)
Variable Date_getTime : string -> jsnumber.
Variable U : URLClass.
(** The injected configuration. *)
Variable config : IApiConf.

(** [/^((http|https):\/\/)/.test(path)]. *)
Definition pattern_test (path : string) : bool :=
  String.prefix "http://" path || String.prefix "https://" path.

(** [composePath], lines 196-219. *)
Definition composePath (path : string) : completion string :=
  let p := if pattern_test path then path else apiUrl config ++ path in
  match truthy (token config) with
  | Some tok =>
      match URL_new U p with
      | Some withToken =>
          Return (URL_toString U (URL_append U withToken "access_token" tok))
      | None => Throw InvalidURL
      end
  | None => Return p
  end.

(** [composeUrl], lines 226-245. *)
Definition composeUrl (endpoint : string) : string :=
  let normalizedEndpoint :=
    if startsWith endpoint "/" then endpoint else "/" ++ endpoint in
  let hasQueryParams := includes normalizedEndpoint "?" in
  let url := apiUrl config ++ normalizedEndpoint in
  match truthy (token config) with
  | Some tok =>
      let separator := if hasQueryParams then "&" else "?" in
      url ++ separator ++ "token=" ++ tok
  | None => url
  end.

(** The block that reads a numeric header (lines 264-270, and again
    276-279): the parsed number when [!isNaN(value) && value >= 0]. *)
Definition countHeader (raw : option string) : option jsnumber :=
  match truthy raw with
  | Some s =>
      let value := parseInt10 s in
      if negb (isNaN value) && ge0 value then Some value else None
  | None => None
  end.

(** [parseHeaders], lines 260-306.  Time values are integers of at most
    8.64e15 in magnitude, so [now.getTime() - serverDate.getTime()] is
    exact for dates less than 285000 years apart.  Nothing in the [try]
    block throws, so its [catch] is not reached. *)
Definition parseHeaders (response : Response.t) (now : Z) : M PartialResponse.t :=
  let headers := PartialResponse.empty in
  let resultsMatching := Headers_get (Response.headers response) "Results-Matching" in
  let headers :=
    match countHeader resultsMatching with
    | Some value => PartialResponse.with_total value headers
    | None => headers
    end in
  let resultsSkipped := Headers_get (Response.headers response) "Results-Skipped" in
  let headers :=
    match countHeader resultsSkipped with
    | Some value => PartialResponse.with_skipped value headers
    | None => headers
    end in
  let linkHeader := Headers_get (Response.headers response) "Link" in
  let headers :=
    match truthy linkHeader with
    | Some l => PartialResponse.with_link l headers
    | None => headers
    end in
  match truthy (Headers_get (Response.headers response) "Date") with
  | Some dateHeader =>
      let serverDate := Date_getTime dateHeader in
      let diff := minus (Num now) serverDate in
      if negb (isNaN diff) then
        set_serverDateDiff diff ;;;
        d <- get_serverDateDiff ;;
        ret (PartialResponse.with_serverDateDiff d headers)
      else ret headers
  | None => ret headers
  end.

(** [getServerDateDiff], lines 313-315. *)
Definition getServerDateDiff : M jsnumber :=
  fun s => (Return (serverDateDiff (this s)), s).

Definition literal (ok : bool) (status : option N) (data : option JSONValue)
    (error : option IApiError.t) : IApiResponse.t :=
  IApiResponse.mk ok status data error None None None None.

(** [type === 'json' ? await response.json() : await response.text()]. *)
Definition decode (response : Response.t) (type : BodyType) : completion JSONValue :=
  match type with
  | json => Response.json response
  | text => match Response.text response with
            | Return s => Return (JString s)
            | Throw e => Throw e
            end
  end.

(** [handleResponse], lines 325-373. *)
Definition handleResponse (response : Response.t) (type : BodyType) (now : Z)
    : M IApiResponse.t :=
  headers <- parseHeaders response now ;;
  if (Response.status response =? 204)%N then
    ret (PartialResponse.spread (literal true (Some 204%N) None None) headers)
  else
    try_catch
      (parsedData <- await (decode response type) ;;
       if negb (Response.ok response) then
         ret (PartialResponse.spread
                (literal false (Some (Response.status response)) (Some parsedData)
                   (Some (IApiError.mk
                            ("Request failed: " ++ decimal (Response.status response)
                               ++ " " ++ Response.statusText response)
                            (Some (Response.status response))
                            (Some (Response.statusText response)))))
                headers)
       else
         ret (PartialResponse.spread
                (literal true (Some (Response.status response)) (Some parsedData) None)
                headers))
      (fun _parseError =>
         ret (PartialResponse.spread
                (literal false (Some (Response.status response)) None
                   (Some (IApiError.mk
                            ("Failed to parse "
                               ++ match type with json => "JSON" | text => "text" end
                               ++ " response")
                            None None)))
                headers)).

(** [handleError], lines 383-401. *)
Definition handleError (error : thrown) : IApiResponse.t :=
  if match error with
     | ErrorObj name _ => (name =? "AbortError")%string
     | NonError _ => false
     end
  then literal false None None (Some (IApiError.mk "Request aborted" None None))
  else literal false None None
         (Some (IApiError.mk
                  match error with
                  | ErrorObj _ message => message
                  | NonError _ => "Network request failed"
                  end
                  None None)).


Definition init_ (method : string) (headers : Headers) (body : option (BodyInit File))
    (signal : option AbortSignal) : RequestInit.t File :=
  RequestInit.mk method headers body "include" signal.

(** [doGet], lines 37-66, in the three parts the [await] separates: what
    runs before the request is issued, the [try]/[catch] around the request
    and its classification, and the [finally] block. *)
Definition doGet_enter (options : option GetOptions) : M (option AbortSignal) :=
  let signal := match options with Some o => signal o | None => None end in
  if usesAbort options then
    previous <- get_controller ;;
    match previous with Some c => abort c | None => ret tt end ;;;
    c <- new_AbortController ;;
    set_controller (Some c) ;;;
    created <- get_controller ;;
    ret (option_map ControllerSignal created)
  else ret signal.

Definition doGet_try (endpoint : string) (signal : option AbortSignal)
    (w : World File) : M IApiResponse.t :=
  try_catch
    (let url := composeUrl endpoint in
     response <- await (fetch w url (init_ "GET" [] None signal)) ;;
     handleResponse response json (now w))
    (fun error => ret (handleError error)).

Definition doGet_finally (options : option GetOptions) : M unit :=
  if usesAbort options then set_controller None else ret tt.

Definition doGet (endpoint : string) (options : option GetOptions)
    (w : World File) : M IApiResponse.t :=
  signal <- doGet_enter options ;;
  try_finally (doGet_try endpoint signal w) (doGet_finally options).

(** [doPost], lines 71-88. *)
Definition doPost (endpoint : string) (body : Body) (signal : option AbortSignal)
    (w : World File) : M IApiResponse.t :=
  try_catch
    (let url := composeUrl endpoint in
     b <- eval (JSON_stringify body) ;;
     response <- await (fetch w url
       (init_ "POST" [("Content-Type", "application/json")]
              (option_map TextBody b) signal)) ;;
     handleResponse response json (now w))
    (fun error => ret (handleError error)).

(** [doPut], lines 93-109. *)
Definition doPut (endpoint : string) (body : Body) (w : World File)
    : M IApiResponse.t :=
  try_catch
    (let url := composeUrl endpoint in
     b <- eval (JSON_stringify body) ;;
     response <- await (fetch w url
       (init_ "PUT" [("Content-Type", "application/json")]
              (option_map TextBody b) None)) ;;
     handleResponse response json (now w))
    (fun error => ret (handleError error)).

(** [doDelete], lines 114-126. *)
Definition doDelete (endpoint : string) (w : World File) : M IApiResponse.t :=
  try_catch
    (let url := composeUrl endpoint in
     response <- await (fetch w url (init_ "DELETE" [] None None)) ;;
     handleResponse response json (now w))
    (fun error => ret (handleError error)).

(** [doPatch], lines 131-147. *)
Definition doPatch (endpoint : string) (patches : Body) (w : World File)
    : M IApiResponse.t :=
  try_catch
    (let url := composeUrl endpoint in
     b <- eval (JSON_stringify patches) ;;
     response <- await (fetch w url
       (init_ "PATCH" [("Content-Type", "application/json-patch+json")]
              (option_map TextBody b) None)) ;;
     handleResponse response json (now w))
    (fun error => ret (handleError error)).

(** [doPostFile], lines 152-168. *)
Definition doPostFile (endpoint : string) (file : File) (w : World File)
    : M IApiResponse.t :=
  try_catch
    (let url := composeUrl endpoint in
     let formData := FormDataBody [("file", file)] in
     response <- await (fetch w url (init_ "POST" [] (Some formData) None)) ;;
     handleResponse response json (now w))
    (fun error => ret (handleError error)).

(** [doGetText], lines 173-185. *)
Definition doGetText (endpoint : string) (w : World File) : M IApiResponse.t :=
  try_catch
    (let url := composeUrl endpoint in
     response <- await (fetch w url (init_ "GET" [] None None)) ;;
     handleResponse response text (now w))
    (fun error => ret (handleError error)).

End Adapter.

End ApiFetch.

(** ** Calls *)

(** The seven operations that perform an HTTP call, with their arguments. *)
Inductive Operation (File Body : Type) : Type :=
| Get (endpoint : string) (options : option GetOptions)
| GetText (endpoint : string)
| Post (endpoint : string) (body : Body) (signal : option AbortSignal)
| Put (endpoint : string) (body : Body)
| Delete (endpoint : string)
| Patch (endpoint : string) (patches : Body)
| PostFile (endpoint : string) (file : File).
Arguments Get {File Body}.
Arguments GetText {File Body}.
Arguments Post {File Body}.
Arguments Put {File Body}.
Arguments Delete {File Body}.
Arguments Patch {File Body}.
Arguments PostFile {File Body}.

Section Calls.

Context {File Body : Type}.
Variable JSON_stringify : Body -> completion (option string).
Variable Date_getTime : string -> jsnumber.
Variable config : IApiConf.

Definition perform (op : Operation File Body) (w : World File)
    : ApiFetch.M IApiResponse.t :=
  match op with
  | Get endpoint options => ApiFetch.doGet Date_getTime config endpoint options w
  | GetText endpoint => ApiFetch.doGetText Date_getTime config endpoint w
  | Post endpoint body signal =>
      ApiFetch.doPost JSON_stringify Date_getTime config endpoint body signal w
  | Put endpoint body => ApiFetch.doPut JSON_stringify Date_getTime config endpoint body w
  | Delete endpoint => ApiFetch.doDelete Date_getTime config endpoint w
  | Patch endpoint patches =>
      ApiFetch.doPatch JSON_stringify Date_getTime config endpoint patches w
  | PostFile endpoint file => ApiFetch.doPostFile Date_getTime config endpoint file w
  end.

(** The value an operation serialises with [JSON.stringify] before it
    calls the transport. *)
Definition jsonBody (op : Operation File Body) : option Body :=
  match op with
  | Post _ body _ | Put _ body | Patch _ body => Some body
  | _ => None
  end.

(** The body type an operation decodes. *)
Definition bodyType (op : Operation File Body) : BodyType :=
  match op with
  | GetText _ => text
  | _ => json
  end.

(** Calls made one after the other on one instance, each settled before
    the next is made. *)
Fixpoint performAll (calls : list (Operation File Body * World File))
    (s : ApiFetch.Store) : ApiFetch.Store :=
  match calls with
  | [] => s
  | (op, w) :: rest => performAll rest (snd (perform op w s))
  end.

(** *** Overlapping [doGet] calls

    An [async] method runs up to its first [await] when it is called and
    resumes when the awaited promise settles.  A page issues [doGet] calls
    and the transport settles them, in any order: [Issue] runs the part of
    [doGet] before the request, [Settle] the rest of it for the call whose
    request settles. *)
Record Pending : Type := {
  endpoint_ : string;
  options_ : option GetOptions;
  signal_ : option AbortSignal
}.

Record Page : Type := {
  store : ApiFetch.Store;
  issued : nat;
  inflight : list (nat * Pending);
  settled : list (nat * completion IApiResponse.t)
}.

Inductive Event : Type :=
| Issue (endpoint : string) (options : option GetOptions)
| Settle (call : nat) (outcome : completion Response.t) (now : Z).

Definition start : Page :=
  {| store := ApiFetch.init; issued := 0%nat; inflight := []; settled := [] |}.

Fixpoint lookup {A : Type} (n : nat) (l : list (nat * A)) : option A :=
  match l with
  | [] => None
  | (k, v) :: rest => if (k =? n)%nat then Some v else lookup n rest
  end.

Definition remove {A : Type} (n : nat) (l : list (nat * A)) : list (nat * A) :=
  filter (fun kv => negb (fst kv =? n)%nat) l.

Definition step (pg : Page) (ev : Event) : Page :=
  match ev with
  | Issue endpoint options =>
      match ApiFetch.doGet_enter options (store pg) with
      | (Return signal, s) =>
          {| store := s; issued := S (issued pg);
             inflight := inflight pg ++ [(issued pg, Build_Pending endpoint options signal)];
             settled := settled pg |}
      | (Throw e, s) =>
          {| store := s; issued := S (issued pg); inflight := inflight pg;
             settled := settled pg ++ [(issued pg, Throw e)] |}
      end
  | Settle call outcome now =>
      match lookup call (inflight pg) with
      | Some p =>
          let w := {| fetch := fun _ (_ : RequestInit.t File) => outcome; now := now |} in
          let (r, s) :=
            ApiFetch.try_finally
              (ApiFetch.doGet_try Date_getTime config (endpoint_ p) (signal_ p) w)
              (ApiFetch.doGet_finally (options_ p)) (store pg) in
          {| store := s; issued := issued pg; inflight := remove call (inflight pg);
             settled := settled pg ++ [(call, r)] |}
      | None => pg
      end
  end.

Definition run (events : list Event) (pg : Page) : Page := fold_left step events pg.

(** The controller behind an in-flight call has been aborted. *)
Definition cancelled (pg : Page) (call : nat) : bool :=
  match lookup call (inflight pg) with
  | Some {| signal_ := Some (ControllerSignal c) |} =>
      existsb (Nat.eqb c) (ApiFetch.aborted (store pg))
  | _ => false
  end.

End Calls.

(** ** Test doubles for concrete runs *)

(** A [Date] that knows three HTTP dates. *)
Definition mockDate (s : string) : jsnumber :=
  if (s =? "Thu, 01 Jan 1970 00:00:00 GMT")%string then Num 0
  else if (s =? "Thu, 01 Jan 1970 00:00:10 GMT")%string then Num 10000
  else if (s =? "Fri, 02 Jan 1970 00:00:00 GMT")%string then Num 86400000
  else NaN.

(** Bodies given as their JSON text. *)
Definition mockStringify (body : string) : completion (option string) :=
  Return (Some body).

(** A transport that answers every request with [r]. *)
Definition answering (r : completion Response.t) (now : Z) : World unit :=
  {| fetch := fun _ _ => r; now := now |}.

Definition conf (base : string) (tok : option string) : IApiConf :=
  {| apiUrl := base; token := tok |}.

Definition auto : option GetOptions :=
  Some {| signal := None; useAbort := Some true |}.

Definition AbortError : thrown :=
  ErrorObj "AbortError" "The operation was aborted.".

(** Responses of the mock transport. *)
Definition boom500 : Response.t :=
  Response.mk 500 "Internal Server Error" []
    (Return (JObject [("message", JString "boom")]))
    (Return ("{" ++ quoted "message" ++ ":" ++ quoted "boom" ++ "}")).

Definition things200 : Response.t :=
  Response.mk 200 "OK" []
    (Return (JArray [JObject [("id", JString "1")]]))
    (Return ("[{" ++ quoted "id" ++ ":" ++ quoted "1" ++ "}]")).

Definition garbled200 : Response.t :=
  Response.mk 200 "OK"
    [("Results-Matching", "42"); ("Results-Skipped", "abc");
     ("Date", "Thu, 01 Jan 1970 00:00:10 GMT")]
    (Throw (ErrorObj "SyntaxError" "Unexpected token < in JSON at position 0"))
    (Return "<html>").

Definition undated404 : Response.t :=
  Response.mk 404 "Not Found"
    [("results-matching", "-1"); ("results-skipped", "7"); ("date", "yesterday")]
    (Return JNull) (Return "null").

Definition base : IApiConf := conf "http://h/api" None.

(** Three auto-cancel searches; the first settles, aborted, before the
    third is issued. *)
Definition typing : list Event :=
  [Issue "/search?q=a" auto;
   Issue "/search?q=ab" auto;
   Settle 0 (Throw AbortError) 0;
   Issue "/search?q=abc" auto].

(** The outcome a call resolves to, if it resolves. *)
Definition resolved {A S : Type} (x : completion A * S) : option A :=
  match fst x with
  | Return a => Some a
  | Throw _ => None
  end.

(** ** Vocabulary of the statements *)

Module Vocabulary.

Section Vocabulary.

Context {File Body : Type}.
Variable JSON_stringify : Body -> completion (option string).
Variable Date_getTime : string -> jsnumber.

(** The clock skew a response yields: local time minus the time value of
    its [Date] header, when the header is there and is a valid date. *)
Definition skew (response : Response.t) (now : Z) : option jsnumber :=
  match truthy (Headers_get (Response.headers response) "Date") with
  | Some d => match Date_getTime d with
              | Num t => Some (Num (now - t))
              | NaN => None
              end
  | None => None
  end.

(** The store with a newly observed skew cached, if there is one. *)
Definition cache (observed : option jsnumber) (s : ApiFetch.Store) : ApiFetch.Store :=
  match observed with
  | Some d =>
      {| ApiFetch.this := ApiFetch.mk d (ApiFetch.controller (ApiFetch.this s));
         ApiFetch.allocated := ApiFetch.allocated s;
         ApiFetch.aborted := ApiFetch.aborted s |}
  | None => s
  end.

(** The skew a settled request yields: none when the transport threw. *)
Definition observed (c : completion Response.t) (now : Z) : option jsnumber :=
  match c with
  | Return response => skew response now
  | Throw _ => None
  end.

(** The last skew observed in a series of settled requests, [d] if there
    is none. *)
Fixpoint lastObserved (l : list (completion Response.t * Z)) (d : jsnumber)
    : jsnumber :=
  match l with
  | [] => d
  | (c, now) :: rest =>
      lastObserved rest (match observed c now with Some d' => d' | None => d end)
  end.

(** The metadata keys [parseHeaders] fills for a response. *)
Definition metadata (response : Response.t) (now : Z) : PartialResponse.t :=
  PartialResponse.mk None None None None
    (ApiFetch.countHeader (Headers_get (Response.headers response) "Results-Matching"))
    (ApiFetch.countHeader (Headers_get (Response.headers response) "Results-Skipped"))
    (truthy (Headers_get (Response.headers response) "Link"))
    (skew response now).

(** The request at the heart of every operation: await the transport,
    classify the response, catch what is thrown. *)
Definition request (c : completion Response.t) (type : BodyType) (now : Z)
    : ApiFetch.M IApiResponse.t :=
  ApiFetch.try_catch
    (ApiFetch.bind (ApiFetch.await c)
       (fun response => ApiFetch.handleResponse Date_getTime response type now))
    (fun error => ApiFetch.ret (ApiFetch.handleError error)).

(** The transport settles every request of [w] as [c]. *)
Definition answers (w : World File) (c : completion Response.t) : Prop :=
  forall url init, fetch w url init = c.

(** [JSON.stringify] does not throw on the body of [op], if it has one. *)
Definition serialisable (op : Operation File Body) : Prop :=
  forall b, jsonBody op = Some b -> exists t, JSON_stringify b = Return t.

End Vocabulary.

End Vocabulary.

Import Vocabulary.

(** The skew an instance has cached. *)
Definition cached (s : ApiFetch.Store) : jsnumber :=
  ApiFetch.serverDateDiff (ApiFetch.this s).

(** The message of the failure a call resolved to. *)
Definition messageOf {S : Type} (x : completion IApiResponse.t * S) : option string :=
  match resolved x with
  | Some r => option_map IApiError.message (IApiResponse.error r)
  | None => None
  end.

(** The name of the body type in the parse-failure message. *)
Definition kindName (type : BodyType) : string :=
  match type with json => "JSON" | text => "text" end.

(** A body that serialises, or one on which [JSON.stringify] throws. *)
Inductive Payload : Type :=
| Plain (jsonText : string)
| Cyclic.

Definition payloadStringify (b : Payload) : completion (option string) :=
  match b with
  | Plain t => Return (Some t)
  | Cyclic => Throw (ErrorObj "TypeError" "Converting circular structure to JSON")
  end.


Definition created201 : Response.t :=
  Response.mk 201 "Created" [("Link", "<http://h/api/things?page=2>; rel=next")]
    (Return (JObject [("id", JString "7")]))
    (Return ("{" ++ quoted "id" ++ ":" ++ quoted "7" ++ "}")).

Definition noContent204 : Response.t :=
  Response.mk 204 "No Content" [("Results-Matching", "3")]
    (Throw (ErrorObj "SyntaxError" "Unexpected end of JSON input"))
    (Return EmptyString).

(** ** Translations ([src/libs/i18n/tt.ts])

    The tables and the variables of a call are plain objects.  A [Dict] lists
    the own properties of such an object, each name once.  Reading a
    property finds the own properties and then those of [Object.prototype],
    whose values are functions (and the prototype itself for [__proto__]):
    truthy values that are not strings. *)
Module I18n.

Definition Dict (A : Type) : Type := list (string * A).

Definition ObjectPrototype : list string :=
  ["constructor"; "hasOwnProperty"; "isPrototypeOf"; "propertyIsEnumerable";
   "toLocaleString"; "toString"; "valueOf"; "__proto__";
   "__defineGetter__"; "__defineSetter__"; "__lookupGetter__"; "__lookupSetter__"].

Inductive property (A : Type) : Type :=
| Own (a : A)
| Inherited
| Missing.
Arguments Own {A} a.
Arguments Inherited {A}.
Arguments Missing {A}.

Fixpoint own {A : Type} (o : Dict A) (k : string) : option A :=
  match o with
  | [] => None
  | (k', v) :: rest => if (k' =? k)%string then Some v else own rest k
  end.

Definition inherited (k : string) : bool :=
  existsb (String.eqb k) ObjectPrototype.

(** [o[k]]. *)
Definition get {A : Type} (o : Dict A) (k : string) : property A :=
  match own o k with
  | Some v => Own v
  | None => if inherited k then Inherited else Missing
  end.

(** A value read from a table: a string, or something else, truthy or not
    ([undefined] is [Other false]). *)
Inductive value : Type :=
| Str (s : string)
| Other (truthy : bool).

Definition isTruthy (v : value) : bool :=
  match v with
  | Str EmptyString => false
  | Str _ => true
  | Other b => b
  end.

(** [\w]. *)
Definition isWord (c : ascii) : bool :=
  let n := nat_of_ascii c in
  ((48 <=? n) && (n <=? 57) || (65 <=? n) && (n <=? 90) || (97 <=? n) && (n <=? 122)
   || (n =? 95))%nat.

(** The longest run of word characters at the start of [s], and the rest. *)
Fixpoint wordPrefix (s : string) : string * string :=
  match s with
  | String c rest =>
      if isWord c then let (w, r) := wordPrefix rest in (String c w, r)
      else (EmptyString, s)
  | EmptyString => (EmptyString, EmptyString)
  end.

(** A match of [/\{\{(\w+)\}\}/] at the start of [s]: the captured name and
    what follows the match.  [\w+] is greedy, and giving characters back
    cannot help, since a word character is not a brace. *)
Definition placeholder (s : string) : option (string * string) :=
  match s with
  | String "{" (String "{" r) =>
      match wordPrefix r with
      | (String c w, String "}" (String "}" rest)) => Some (String c w, rest)
      | _ => None
      end
  | _ => None
  end.

(** [s.replace(/\{\{(\w+)\}\}/g, (_, varName) => f(varName))]: the matches
    are found from left to right and do not overlap; [skip] counts the
    characters of the current match still to pass. *)
Fixpoint replacePlaceholders (f : string -> string) (s : string) (skip : nat) : string :=
  match s with
  | EmptyString => EmptyString
  | String c rest =>
      match skip with
      | S n => replacePlaceholders f rest n
      | O =>
          match placeholder s with
          | Some (varName, _) =>
              f varName ++ replacePlaceholders f rest (String.length varName + 3)
          | None => String c (replacePlaceholders f rest 0)
          end
      end
  end.

Section Module_.

(** The constant [translations] of the module (its value is given below). *)
Variable translations : Dict (Dict string).

(** [translations[lang][key]] when [lang] names a member of
    [Object.prototype], and the text of such a member. *)
Variable foreign : string -> string -> completion value.
Variable inheritedText : string -> string.

(** [opts[varName] || '']. *)
Definition variable (opts : Dict string) (varName : string) : string :=
  match get opts varName with
  | Own v => v
  | Inherited => inheritedText varName
  | Missing => EmptyString
  end.

(** [translations[currentLang]?.[key]]. *)
Definition entry (currentLang key : string) : completion value :=
  match get translations currentLang with
  | Own table =>
      Return match get table key with
             | Own v => Str v
             | Inherited => Other true
             | Missing => Other false
             end
  | Inherited => foreign currentLang key
  | Missing => Return (Other false)
  end.

(** [tt], lines 54-66, with the value of [currentLang] at the call.  Only
    strings have a [replace] method. *)
Definition tt (currentLang key : string) (opts : option (Dict string))
    : completion value :=
  match entry currentLang key with
  | Throw e => Throw e
  | Return found =>
      let template := if isTruthy found then found else Str key in
      match opts with
      | None => Return template
      | Some o =>
          match template with
          | Str t => Return (Str (replacePlaceholders (variable o) t 0))
          | Other _ => Throw (ErrorObj "TypeError" "template.replace is not a function")
          end
      end
  end.

(** [setLanguage], lines 73-77: the new value of [currentLang]. *)
Definition setLanguage (lang currentLang : string) : string :=
  match get translations lang with
  | Missing => currentLang
  | _ => lang
  end.

(** [getCurrentLanguage], lines 82-84. *)
Definition getCurrentLanguage (currentLang : string) : string := currentLang.

(** [getAvailableLanguages], lines 89-91. *)
Definition getAvailableLanguages : list string := map fst translations.

End Module_.

(** [translations], lines 2-31. *)
Definition translations : Dict (Dict string) :=
  [("en",
    [("SM.SHELL.INITIALIZING", "Initializing...");
     ("SM.OUTBOUND.TITLE", "Outbound Manager");
     ("SM.OUTBOUND.LOADING", "Loading campaigns...");
     ("SM.OUTBOUND.NO_CAMPAIGNS", "No campaigns available");
     ("SM.OUTBOUND.CAMPAIGN.STATUS", "Status");
     ("SM.OUTBOUND.CAMPAIGN.DIALED", "Dialed");
     ("SM.OUTBOUND.CAMPAIGN.CONNECTED", "Connected");
     ("SM.OUTBOUND.CAMPAIGN.START", "Start Campaign");
     ("SM.OUTBOUND.CAMPAIGN.PAUSE", "Pause Campaign");
     ("SM.OUTBOUND.CAMPAIGN.SELECTED", "Selected: {{name}}")]);
   ("it",
    [("SM.SHELL.INITIALIZING", "Inizializzazione...");
     ("SM.OUTBOUND.TITLE", "Gestione Outbound");
     ("SM.OUTBOUND.LOADING", "Caricamento campagne...");
     ("SM.OUTBOUND.NO_CAMPAIGNS", "Nessuna campagna disponibile");
     ("SM.OUTBOUND.CAMPAIGN.STATUS", "Stato");
     ("SM.OUTBOUND.CAMPAIGN.DIALED", "Chiamate");
     ("SM.OUTBOUND.CAMPAIGN.CONNECTED", "Connesse");
     ("SM.OUTBOUND.CAMPAIGN.START", "Avvia Campagna");
     ("SM.OUTBOUND.CAMPAIGN.PAUSE", "Pausa Campagna");
     ("SM.OUTBOUND.CAMPAIGN.SELECTED", "Selezionata: {{name}}")])].

(** [let currentLang = 'en'], line 34: the state of the module. *)
Definition initialLang : string := "en".

End I18n.

(** ** The campaign service ([src/apps/outbound-manager/outbound.service.ts])

    The service sees the adapter through [IApiFetch] and reads three fields
    of a reply; [data] is [None] when the field is absent (or falsy) and
    holds a value of the declared type otherwise.  A [BehaviorSubject] is
    its current value and the values passed to [next], oldest first.  The
    subjects [campaigns$], [selectedCampaign$] and [loading$] are written
    without the dollar sign. *)
Module Outbound.

Inductive Status : Type := active | paused | completed.

Module Campaign.
Record t : Type := mk {
  id : string;
  name : string;
  status : Status;
  dialedCount : Z;
  connectedCount : Z
}.
End Campaign.

Module Reply.
Record t (T : Type) : Type := mk {
  ok : bool;
  data : option T;
  error : option IApiError.t
}.
Arguments mk {T} ok data error.
Arguments ok {T} r : rename.
Arguments data {T} r : rename.
Arguments error {T} r : rename.
End Reply.

Record IApiFetch : Type := {
  doGet : string -> completion (Reply.t (list Campaign.t));
  doPost : string -> JSONValue -> completion (Reply.t Campaign.t)
}.

Module BehaviorSubject.
Record t (A : Type) : Type := mk {
  value : A;
  emitted : list A
}.
Arguments mk {A} value emitted.
Arguments value {A} s : rename.
Arguments emitted {A} s : rename.

Definition create {A : Type} (a : A) : t A := mk a [].

Definition next {A : Type} (a : A) (s : t A) : t A := mk a (emitted s ++ [a]).
End BehaviorSubject.

(** The calls of the logger: the level and the arguments. *)
Inductive Level : Type := Debug | Log | Error.

Inductive Arg : Type :=
| Text (s : string)
| Undefined
| Caught (e : thrown).

Record OutboundService : Type := {
  campaigns : BehaviorSubject.t (list Campaign.t);
  selectedCampaign : BehaviorSubject.t (option Campaign.t);
  loading : BehaviorSubject.t bool;
  logger : list (Level * list Arg)
}.

Definition logged (l : Level) (args : list Arg) (svc : OutboundService)
    : OutboundService :=
  {| campaigns := campaigns svc;
     selectedCampaign := selectedCampaign svc;
     loading := loading svc;
     logger := logger svc ++ [(l, args)] |}.

Definition campaigns_next (v : list Campaign.t) (svc : OutboundService)
    : OutboundService :=
  {| campaigns := BehaviorSubject.next v (campaigns svc);
     selectedCampaign := selectedCampaign svc;
     loading := loading svc;
     logger := logger svc |}.

Definition selectedCampaign_next (v : option Campaign.t) (svc : OutboundService)
    : OutboundService :=
  {| campaigns := campaigns svc;
     selectedCampaign := BehaviorSubject.next v (selectedCampaign svc);
     loading := loading svc;
     logger := logger svc |}.

Definition loading_next (v : bool) (svc : OutboundService) : OutboundService :=
  {| campaigns := campaigns svc;
     selectedCampaign := selectedCampaign svc;
     loading := BehaviorSubject.next v (loading svc);
     logger := logger svc |}.

(** The fields and the constructor, lines 186-196. *)
Definition create : OutboundService :=
  {| campaigns := BehaviorSubject.create [];
     selectedCampaign := BehaviorSubject.create None;
     loading := BehaviorSubject.create false;
     logger := [(Log, [Text "OutboundService initialized"])] |}.

(** [response.error?.message]. *)
Definition errorMessage (e : option IApiError.t) : Arg :=
  match e with
  | Some e => Text (IApiError.message e)
  | None => Undefined
  end.

(** [loadCampaigns], lines 200-221: up to the [await], and from the moment
    the call of [doGet] completes. *)
Definition loadCampaigns_enter (svc : OutboundService) : OutboundService :=
  loading_next true (logged Debug [Text "Loading campaigns..."] svc).

Definition loadCampaigns_settle (c : completion (Reply.t (list Campaign.t)))
    (svc : OutboundService) : completion unit * OutboundService :=
  let svc :=
    match c with
    | Return response =>
        match Reply.ok response, Reply.data response with
        | true, Some data =>
            logged Log
              [Text ("Loaded " ++ decimal (N.of_nat (List.length data)) ++ " campaigns")]
              (campaigns_next data svc)
        | _, _ =>
            campaigns_next []
              (logged Error
                 [Text "Failed to load campaigns:"; errorMessage (Reply.error response)] svc)
        end
    | Throw error =>
        campaigns_next []
          (logged Error [Text "Unexpected error loading campaigns:"; Caught error] svc)
    end in
  (Return tt, loading_next false svc).

Definition loadCampaigns (apiFetch : IApiFetch) (svc : OutboundService)
    : completion unit * OutboundService :=
  loadCampaigns_settle (doGet apiFetch "/campaigns") (loadCampaigns_enter svc).

(** [selectCampaign], lines 226-237. *)
Definition selectCampaign (id : string) (svc : OutboundService) : OutboundService :=
  let svc := logged Debug [Text "Selecting campaign:"; Text id] svc in
  match find (fun c => (Campaign.id c =? id)%string)
             (BehaviorSubject.value (campaigns svc)) with
  | Some campaign =>
      logged Log [Text "Campaign selected:"; Text (Campaign.name campaign)]
        (selectedCampaign_next (Some campaign) svc)
  | None =>
      selectedCampaign_next None (logged Error [Text "Campaign not found:"; Text id] svc)
  end.

(** [startCampaign], lines 242-265: up to the [await], and from the moment
    the call of [doPost] completes.  There is no [try] around the call. *)
Definition startCampaign_enter (id : string) (svc : OutboundService)
    : OutboundService :=
  logged Debug [Text "Starting campaign:"; Text id] svc.

Definition startCampaign_settle (id : string)
    (c : completion (Reply.t Campaign.t)) (svc : OutboundService)
    : completion bool * OutboundService :=
  match c with
  | Throw e => (Throw e, svc)
  | Return response =>
      match Reply.ok response, Reply.data response with
      | true, Some updatedCampaign =>
          let campaigns :=
            map (fun c => if (Campaign.id c =? id)%string then updatedCampaign else c)
                (BehaviorSubject.value (campaigns svc)) in
          let svc := campaigns_next campaigns svc in
          let svc :=
            match BehaviorSubject.value (selectedCampaign svc) with
            | Some selected =>
                if (Campaign.id selected =? id)%string
                then selectedCampaign_next (Some updatedCampaign) svc
                else svc
            | None => svc
            end in
          (Return true, logged Log [Text "Campaign started:"; Text id] svc)
      | _, _ =>
          (Return false,
           logged Error
             [Text "Failed to start campaign:"; errorMessage (Reply.error response)] svc)
      end
  end.

Definition startCampaign (apiFetch : IApiFetch) (id : string) (svc : OutboundService)
    : completion bool * OutboundService :=
  startCampaign_settle id
    (doPost apiFetch ("/campaigns/" ++ id ++ "/start") (JObject []))
    (startCampaign_enter id svc).

(** [pauseCampaign], lines 270-293. *)
Definition pauseCampaign_enter (id : string) (svc : OutboundService)
    : OutboundService :=
  logged Debug [Text "Pausing campaign:"; Text id] svc.

Definition pauseCampaign_settle (id : string)
    (c : completion (Reply.t Campaign.t)) (svc : OutboundService)
    : completion bool * OutboundService :=
  match c with
  | Throw e => (Throw e, svc)
  | Return response =>
      match Reply.ok response, Reply.data response with
      | true, Some updatedCampaign =>
          let campaigns :=
            map (fun c => if (Campaign.id c =? id)%string then updatedCampaign else c)
                (BehaviorSubject.value (campaigns svc)) in
          let svc := campaigns_next campaigns svc in
          let svc :=
            match BehaviorSubject.value (selectedCampaign svc) with
            | Some selected =>
                if (Campaign.id selected =? id)%string
                then selectedCampaign_next (Some updatedCampaign) svc
                else svc
            | None => svc
            end in
          (Return true, logged Log [Text "Campaign paused:"; Text id] svc)
      | _, _ =>
          (Return false,
           logged Error
             [Text "Failed to pause campaign:"; errorMessage (Reply.error response)] svc)
      end
  end.

Definition pauseCampaign (apiFetch : IApiFetch) (id : string) (svc : OutboundService)
    : completion bool * OutboundService :=
  pauseCampaign_settle id
    (doPost apiFetch ("/campaigns/" ++ id ++ "/pause") (JObject []))
    (pauseCampaign_enter id svc).

End Outbound.

(** ** Vocabulary of the further statements *)





(** The signal an operation hands to the transport, in store [s]. *)
Definition signalOf {File Body : Type} (op : Operation File Body) (s : ApiFetch.Store)
    : option AbortSignal :=
  match op with
  | Get _ options =>
      if usesAbort options then Some (ControllerSignal (ApiFetch.allocated s))
      else match options with Some o => signal o | None => None end
  | Post _ _ sig => sig
  | _ => None
  end.

(** Call numbers and controllers are handed out in order: no call in flight
    has a number that is still to be issued, and the slot and the aborted
    controllers are controllers already created. *)
Definition ordered (pg : Page) : Prop :=
  (forall k, (issued pg <= k)%nat -> lookup k (inflight pg) = None) /\
  (forall c, In c (ApiFetch.aborted (store pg)) -> (c < ApiFetch.allocated (store pg))%nat) /\
  (forall c, ApiFetch.controller (ApiFetch.this (store pg)) = Some c ->
             (c < ApiFetch.allocated (store pg))%nat).

(** An event that is not the issue of an auto-cancel call. *)
Definition manual (ev : Event) : Prop :=
  match ev with
  | Issue _ options => usesAbort options = false
  | Settle _ _ _ => True
  end.

(** The part of the store the abort machinery uses. *)
Definition abortState (s : ApiFetch.Store)
    : option AbortController * nat * list AbortController :=
  (ApiFetch.controller (ApiFetch.this s), ApiFetch.allocated s, ApiFetch.aborted s).

(** No match of the placeholder pattern anywhere in [s]. *)
Fixpoint plain (s : string) : bool :=
  match s with
  | EmptyString => true
  | String _ rest =>
      match I18n.placeholder s with
      | Some _ => false
      | None => plain rest
      end
  end.

Fixpoint wordChars (s : string) : bool :=
  match s with
  | EmptyString => true
  | String c rest => I18n.isWord c && wordChars rest
  end.

(** A variable name: one or more word characters. *)
Definition word (s : string) : bool :=
  match s with
  | EmptyString => false
  | _ => wordChars s
  end.

(** The language is none of the table, or its table has no text for the
    key, or an empty one; members of [Object.prototype] apart. *)
Definition untranslated (translations : I18n.Dict (I18n.Dict string))
    (lang key : string) : Prop :=
  match I18n.get translations lang with
  | I18n.Own table =>
      match I18n.get table key with
      | I18n.Own t => t = EmptyString
      | I18n.Missing => True
      | I18n.Inherited => False
      end
  | I18n.Missing => True
  | I18n.Inherited => False
  end.

(** The current language after a series of [setLanguage] calls. *)
Definition languageAfter (translations : I18n.Dict (I18n.Dict string))
    (langs : list string) : string :=
  fold_left (fun currentLang lang => I18n.setLanguage translations lang currentLang)
            langs I18n.initialLang.

(** The selected campaign, if any, is one of the list. *)
Definition consistent (svc : Outbound.OutboundService) : Prop :=
  match Outbound.BehaviorSubject.value (Outbound.selectedCampaign svc) with
  | Some c => In c (Outbound.BehaviorSubject.value (Outbound.campaigns svc))
  | None => True
  end.

(** The call of the adapter rejected, or its reply is not [ok], or has no
    data. *)
Definition failed {T : Type} (c : completion (Outbound.Reply.t T)) : Prop :=
  match c with
  | Throw _ => True
  | Return r => Outbound.Reply.ok r = false \/ Outbound.Reply.data r = None
  end.

Inductive Command : Type := Start | Pause.

Definition settle (cmd : Command)
    : string -> completion (Outbound.Reply.t Outbound.Campaign.t) ->
      Outbound.OutboundService -> completion bool * Outbound.OutboundService :=
  match cmd with
  | Start => Outbound.startCampaign_settle
  | Pause => Outbound.pauseCampaign_settle
  end.

(** The three subjects of the service, with what they have emitted. *)
Definition subjects (svc : Outbound.OutboundService) :=
  (Outbound.campaigns svc, Outbound.selectedCampaign svc, Outbound.loading svc).

(** A table of one language, for the instances. *)
Definition greetings : I18n.Dict (I18n.Dict string) :=
  [("en", [("HELLO", "Hello {{name}}, {{count}} new"); ("BRACES", "{{ name }} {x}");
           ("EMPTY", EmptyString)])].

Definition noForeign (lang key : string) : completion I18n.value :=
  Return (I18n.Other false).

Definition functionText (name : string) : string :=
  "function " ++ name ++ "() { [native code] }".

Definition campaign (id : string) (status : Outbound.Status) : Outbound.Campaign.t :=
  Outbound.Campaign.mk id ("Campaign " ++ id) status 0 0.

Definition replying (get : completion (Outbound.Reply.t (list Outbound.Campaign.t)))
    (post : completion (Outbound.Reply.t Outbound.Campaign.t)) : Outbound.IApiFetch :=
  {| Outbound.doGet := fun _ => get; Outbound.doPost := fun _ _ => post |}.

(** * Properties *)

Section Properties.

Context {File Body : Type}.
Variable JSON_stringify : Body -> completion (option string).
Variable Date_getTime : string -> jsnumber.
Variable config : IApiConf.

#[local] Abbreviation handleResponse := (ApiFetch.handleResponse Date_getTime).
#[local] Abbreviation parseHeaders := (ApiFetch.parseHeaders Date_getTime).
#[local] Abbreviation perform := (@perform File Body JSON_stringify Date_getTime config).
#[local] Abbreviation skew := (Vocabulary.skew Date_getTime).
#[local] Abbreviation metadata := (Vocabulary.metadata Date_getTime).
#[local] Abbreviation request := (Vocabulary.request Date_getTime).

Lemma over_None {A} (h : option A) : PartialResponse.over h None = h.
Proof. destruct h; reflexivity. Qed.

(** A literal without metadata keys, spread with the metadata. *)
Lemma spread_metadata ok status data error response now :
  PartialResponse.spread (ApiFetch.literal ok status data error) (metadata response now) =
  IApiResponse.mk ok status data error
    (ApiFetch.countHeader (Headers_get (Response.headers response) "Results-Matching"))
    (ApiFetch.countHeader (Headers_get (Response.headers response) "Results-Skipped"))
    (truthy (Headers_get (Response.headers response) "Link"))
    (skew response now).
Proof.
  unfold PartialResponse.spread, Vocabulary.metadata, ApiFetch.literal. simpl.
  rewrite !over_None. reflexivity.
Qed.

Lemma parseHeaders_run response now s :
  parseHeaders response now s = (Return (metadata response now), cache (skew response now) s).
Proof.
  unfold ApiFetch.parseHeaders, metadata, Vocabulary.skew.
  destruct (ApiFetch.countHeader (Headers_get _ "Results-Matching"));
    destruct (ApiFetch.countHeader (Headers_get _ "Results-Skipped"));
    destruct (truthy (Headers_get _ "Link"));
    (destruct (truthy (Headers_get _ "Date")) as [d|];
     [destruct (Date_getTime d) as [|t]|]); reflexivity.
Qed.

Lemma status_204_ok response :
  (Response.status response =? 204)%N = true -> Response.ok response = true.
Proof.
  intros H. apply N.eqb_eq in H. unfold Response.ok. rewrite H. reflexivity.
Qed.

(** The four ways [handleResponse] ends. *)
Lemma handleResponse_204 response type now s :
  Response.status response = 204%N ->
  handleResponse response type now s =
  (Return (PartialResponse.spread (ApiFetch.literal true (Some 204%N) None None)
             (metadata response now)),
   cache (skew response now) s).
Proof.
  intros H. unfold ApiFetch.handleResponse, ApiFetch.bind.
  rewrite parseHeaders_run, H. reflexivity.
Qed.

Lemma handleResponse_failed response type now s parsedData :
  Response.ok response = false ->
  ApiFetch.decode response type = Return parsedData ->
  handleResponse response type now s =
  (Return (PartialResponse.spread
             (ApiFetch.literal false (Some (Response.status response)) (Some parsedData)
                (Some (IApiError.mk
                         ("Request failed: " ++ decimal (Response.status response)
                            ++ " " ++ Response.statusText response)
                         (Some (Response.status response))
                         (Some (Response.statusText response)))))
             (metadata response now)),
   cache (skew response now) s).
Proof.
  intros Hok Hd. unfold ApiFetch.handleResponse, ApiFetch.bind.
  rewrite parseHeaders_run.
  destruct (Response.status response =? 204)%N eqn:E.
  - apply status_204_ok in E. congruence.
  - unfold ApiFetch.try_catch, ApiFetch.await. rewrite Hd, Hok. reflexivity.
Qed.

Lemma handleResponse_success response type now s parsedData :
  Response.status response <> 204%N ->
  Response.ok response = true ->
  ApiFetch.decode response type = Return parsedData ->
  handleResponse response type now s =
  (Return (PartialResponse.spread
             (ApiFetch.literal true (Some (Response.status response)) (Some parsedData) None)
             (metadata response now)),
   cache (skew response now) s).
Proof.
  intros Hs Hok Hd. unfold ApiFetch.handleResponse, ApiFetch.bind.
  rewrite parseHeaders_run.
  apply N.eqb_neq in Hs. rewrite Hs.
  unfold ApiFetch.try_catch, ApiFetch.await. rewrite Hd, Hok. reflexivity.
Qed.

Lemma handleResponse_undecodable response type now s e :
  Response.status response <> 204%N ->
  ApiFetch.decode response type = Throw e ->
  handleResponse response type now s =
  (Return (PartialResponse.spread
             (ApiFetch.literal false (Some (Response.status response)) None
                (Some (IApiError.mk ("Failed to parse " ++ kindName type ++ " response")
                         None None)))
             (metadata response now)),
   cache (skew response now) s).
Proof.
  intros Hs Hd. unfold ApiFetch.handleResponse, ApiFetch.bind.
  rewrite parseHeaders_run.
  apply N.eqb_neq in Hs. rewrite Hs.
  unfold ApiFetch.try_catch, ApiFetch.await. rewrite Hd.
  destruct type; reflexivity.
Qed.

(** [handleResponse] resolves, whatever the response. *)
Lemma handleResponse_resolves response type now s :
  exists r, handleResponse response type now s = (Return r, cache (skew response now) s).
Proof.
  destruct (N.eq_dec (Response.status response) 204) as [E|E].
  - eexists. apply handleResponse_204. exact E.
  - destruct (ApiFetch.decode response type) as [d|e] eqn:Hd.
    + destruct (Response.ok response) eqn:Hok.
      * eexists. eapply handleResponse_success; eassumption.
      * eexists. eapply handleResponse_failed; eassumption.
    + eexists. eapply handleResponse_undecodable; eassumption.
Qed.



Lemma request_run c type now s :
  request c type now s =
  match c with
  | Return response => handleResponse response type now s
  | Throw e => (Return (ApiFetch.handleError e), s)
  end.
Proof.
  unfold request, ApiFetch.try_catch, ApiFetch.bind, ApiFetch.await.
  destruct c as [response|e]; [|reflexivity].
  destruct (handleResponse_resolves response type now s) as [r ->]. reflexivity.
Qed.

(** The same after [JSON.stringify], which may throw first. *)
Lemma request_after_stringify (b : completion (option string))
    (k : option string -> completion Response.t) type now s :
  ApiFetch.try_catch
    (ApiFetch.bind (ApiFetch.eval b) (fun t =>
       ApiFetch.bind (ApiFetch.await (k t)) (fun response =>
         handleResponse response type now)))
    (fun error => ApiFetch.ret (ApiFetch.handleError error)) s =
  match b with
  | Return t => request (k t) type now s
  | Throw e => (Return (ApiFetch.handleError e), s)
  end.
Proof.
  destruct b as [t|e]; reflexivity.
Qed.

Lemma enter_resolves options s :
  exists signal s',
    ApiFetch.doGet_enter options s = (Return signal, s') /\ cached s' = cached s.
Proof.
  unfold ApiFetch.doGet_enter.
  destruct (usesAbort options); [|eexists; eexists; split; reflexivity].
  unfold ApiFetch.bind, ApiFetch.get_controller.
  destruct (ApiFetch.controller (ApiFetch.this s)); eexists; eexists; split; reflexivity.
Qed.

Lemma finally_resolves {A} (m : ApiFetch.M A) options s :
  exists s'',
    ApiFetch.try_finally m (ApiFetch.doGet_finally options) s = (fst (m s), s'') /\
    cached s'' = cached (snd (m s)).
Proof.
  unfold ApiFetch.try_finally, ApiFetch.doGet_finally.
  destruct (m s) as [c s'].
  destruct (usesAbort options); eexists; split; reflexivity.
Qed.

(** Every operation is one [request], on the completion of its transport
    call or on what [JSON.stringify] threw: its outcome is the outcome of
    that request in a store with the same cached skew, and it leaves the
    skew that request leaves. *)
Lemma perform_request op w s :
  exists c s0,
    fst (perform op w s) = fst (request c (bodyType op) (now w) s0) /\
    cached s0 = cached s /\
    cached (snd (perform op w s)) = cached (snd (request c (bodyType op) (now w) s0)) /\
    ((exists url init, c = fetch w url init) \/
     (exists b e, jsonBody op = Some b /\ JSON_stringify b = Throw e /\ c = Throw e)).
Proof.
  destruct op as [endpoint options|endpoint|endpoint body signal|endpoint body
                 |endpoint|endpoint body|endpoint file]; simpl.
  - unfold ApiFetch.doGet, ApiFetch.bind.
    destruct (enter_resolves options s) as (sig & s0 & -> & Hc).
    destruct (finally_resolves
                (ApiFetch.doGet_try Date_getTime config endpoint sig w) options s0)
      as (s2 & -> & Hc2).
    exists (fetch w (ApiFetch.composeUrl config endpoint) (ApiFetch.init_ "GET" [] None sig)), s0.
    repeat split; [exact Hc|exact Hc2|]. left. eauto.
  - do 2 eexists. repeat split. left. eauto.
  - unfold ApiFetch.doPost. rewrite request_after_stringify.
    destruct (JSON_stringify body) as [t|e] eqn:Hb.
    + do 2 eexists. repeat split. left. eauto.
    + exists (Throw e), s. rewrite request_run. repeat split. right. eauto.
  - unfold ApiFetch.doPut. rewrite request_after_stringify.
    destruct (JSON_stringify body) as [t|e] eqn:Hb.
    + do 2 eexists. repeat split. left. eauto.
    + exists (Throw e), s. rewrite request_run. repeat split. right. eauto.
  - do 2 eexists. repeat split. left. eauto.
  - unfold ApiFetch.doPatch. rewrite request_after_stringify.
    destruct (JSON_stringify body) as [t|e] eqn:Hb.
    + do 2 eexists. repeat split. left. eauto.
    + exists (Throw e), s. rewrite request_run. repeat split. right. eauto.
  - do 2 eexists. repeat split. left. eauto.
Qed.

(** When the transport settles every request as [c] and the body
    serialises, the outcome is that of [request c]. *)
Lemma perform_settled op w s c :
  answers w c -> serialisable JSON_stringify op ->
  exists s0,
    fst (perform op w s) = fst (request c (bodyType op) (now w) s0) /\
    cached s0 = cached s /\
    cached (snd (perform op w s)) = cached (snd (request c (bodyType op) (now w) s0)).
Proof.
  intros Hw Hs.
  destruct (perform_request op w s)
    as (c' & s0 & H1 & H2 & H3 & [(url & init & ->)|(b & e & Hb & He & _)]).
  - exists s0. rewrite Hw in H1, H3. auto.
  - destruct (Hs b Hb) as [t Ht]. congruence.
Qed.

(** *** Outcome classification *)

(** C1. Every operation that performs an HTTP call resolves to an
    [IApiResponse] value, for every behaviour of the transport (a response
    of any status, with a body that decodes or not, or a thrown value, an
    abort among them) and of [JSON.stringify]: no completion is a
    rejection. *)
Theorem operations_never_reject op w s :
  exists (r : IApiResponse.t) (s' : ApiFetch.Store), perform op w s = (Return r, s').
Proof.
  destruct (perform_request op w s) as (c & s0 & H & _).
  rewrite request_run in H.
  assert (exists r, fst (perform op w s) = Return r) as [r Hr].
  { rewrite H. destruct c as [response|e].
    - destruct (handleResponse_resolves response (bodyType op) (now w) s0) as [r ->].
      exists r. reflexivity.
    - eexists. reflexivity. }
  exists r, (snd (perform op w s)). rewrite <- Hr. apply surjective_pairing.
Qed.

(** C2, amended. A response whose body decodes and whose status is outside
    200-299 gives a failure that carries the status, the status text, the
    message ["Request failed: <status> <statusText>"] (capital R), the
    decoded body as [data], and the metadata of the headers. *)
Theorem http_error_outcome op w s response parsedData :
  answers w (Return response) ->
  serialisable JSON_stringify op ->
  Response.ok response = false ->
  ApiFetch.decode response (bodyType op) = Return parsedData ->
  resolved (perform op w s) =
  Some {| IApiResponse.ok := false;
          IApiResponse.status := Some (Response.status response);
          IApiResponse.data := Some parsedData;
          IApiResponse.error :=
            Some {| IApiError.message :=
                      "Request failed: " ++ decimal (Response.status response)
                        ++ " " ++ Response.statusText response;
                    IApiError.status := Some (Response.status response);
                    IApiError.statusText := Some (Response.statusText response) |};
          IApiResponse.total :=
            ApiFetch.countHeader (Headers_get (Response.headers response) "Results-Matching");
          IApiResponse.skipped :=
            ApiFetch.countHeader (Headers_get (Response.headers response) "Results-Skipped");
          IApiResponse.link := truthy (Headers_get (Response.headers response) "Link");
          IApiResponse.serverDateDiff := skew response (now w) |}.
Proof.
  intros Hw Hs Hok Hd.
  destruct (perform_settled op w s _ Hw Hs) as (s0 & H & _).
  unfold resolved. rewrite H, request_run.
  rewrite (handleResponse_failed _ _ _ _ parsedData Hok Hd).
  simpl. rewrite spread_metadata. reflexivity.
Qed.

(** C3, amended. A response other than a 204 whose body does not decode
    gives a failure with the message ["Failed to parse JSON response"] (the
    JSON operations) or ["Failed to parse text response"] ([doGetText]),
    the status of the response, no [data], and the metadata of the headers,
    whether the status is in 200-299 or not. *)
Theorem undecodable_body_outcome op w s response e :
  answers w (Return response) ->
  serialisable JSON_stringify op ->
  Response.status response <> 204%N ->
  ApiFetch.decode response (bodyType op) = Throw e ->
  resolved (perform op w s) =
  Some {| IApiResponse.ok := false;
          IApiResponse.status := Some (Response.status response);
          IApiResponse.data := None;
          IApiResponse.error :=
            Some {| IApiError.message :=
                      match bodyType op with
                      | json => "Failed to parse JSON response"
                      | text => "Failed to parse text response"
                      end;
                    IApiError.status := None;
                    IApiError.statusText := None |};
          IApiResponse.total :=
            ApiFetch.countHeader (Headers_get (Response.headers response) "Results-Matching");
          IApiResponse.skipped :=
            ApiFetch.countHeader (Headers_get (Response.headers response) "Results-Skipped");
          IApiResponse.link := truthy (Headers_get (Response.headers response) "Link");
          IApiResponse.serverDateDiff := skew response (now w) |}.
Proof.
  intros Hw Hs H204 Hd.
  destruct (perform_settled op w s _ Hw Hs) as (s0 & H & _).
  unfold resolved. rewrite H, request_run.
  rewrite (handleResponse_undecodable _ _ _ _ e H204 Hd).
  simpl. rewrite spread_metadata.
  destruct (bodyType op); reflexivity.
Qed.

(** C4, amended. When the transport throws: an [Error] named [AbortError]
    gives the message ["Request aborted"], any other [Error] its own
    message, a value that is not an [Error] the message
    ["Network request failed"] (capital N); the failure has no status, no
    status text, no [data] and no metadata. *)
Theorem thrown_error_outcome op w s e :
  answers w (Throw e) ->
  serialisable JSON_stringify op ->
  resolved (perform op w s) =
  Some {| IApiResponse.ok := false;
          IApiResponse.status := None;
          IApiResponse.data := None;
          IApiResponse.error :=
            Some {| IApiError.message :=
                      match e with
                      | ErrorObj name message =>
                          if (name =? "AbortError")%string then "Request aborted"
                          else message
                      | NonError _ => "Network request failed"
                      end;
                    IApiError.status := None;
                    IApiError.statusText := None |};
          IApiResponse.total := None;
          IApiResponse.skipped := None;
          IApiResponse.link := None;
          IApiResponse.serverDateDiff := None |}.
Proof.
  intros Hw Hs.
  destruct (perform_settled op w s _ Hw Hs) as (s0 & H & _).
  unfold resolved. rewrite H, request_run. simpl.
  unfold ApiFetch.handleError.
  destruct e as [name message|d]; [destruct (name =? "AbortError")%string|]; reflexivity.
Qed.

(** *** Metadata *)

(** What a received response puts in the outcome and in the cache. *)
Lemma received_metadata response type now s :
  exists r,
    handleResponse response type now s = (Return r, cache (skew response now) s) /\
    IApiResponse.total r =
      ApiFetch.countHeader (Headers_get (Response.headers response) "Results-Matching") /\
    IApiResponse.skipped r =
      ApiFetch.countHeader (Headers_get (Response.headers response) "Results-Skipped") /\
    IApiResponse.link r = truthy (Headers_get (Response.headers response) "Link") /\
    IApiResponse.serverDateDiff r = skew response now.
Proof.
  destruct (N.eq_dec (Response.status response) 204) as [E|E].
  - eexists. split; [apply handleResponse_204; exact E|].
    rewrite spread_metadata. repeat split.
  - destruct (ApiFetch.decode response type) as [d|e] eqn:Hd.
    + destruct (Response.ok response) eqn:Hok.
      * eexists. split; [eapply handleResponse_success; eassumption|].
        rewrite spread_metadata. repeat split.
      * eexists. split; [eapply handleResponse_failed; eassumption|].
        rewrite spread_metadata. repeat split.
    + eexists. split; [eapply handleResponse_undecodable; eassumption|].
      rewrite spread_metadata. repeat split.
Qed.

Lemma countHeader_NaN v : parseInt10 v = NaN -> ApiFetch.countHeader (Some v) = None.
Proof.
  intros H. unfold ApiFetch.countHeader.
  destruct v as [|c v']; [reflexivity|]. cbn [truthy]. rewrite H. reflexivity.
Qed.

Lemma countHeader_negative v n :
  parseInt10 v = Num n -> n < 0 -> ApiFetch.countHeader (Some v) = None.
Proof.
  intros H Hn. unfold ApiFetch.countHeader.
  destruct v as [|c v']; [reflexivity|]. cbn [truthy]. rewrite H.
  cbn [isNaN ge0 negb andb]. destruct (Z.leb_spec 0 n); [lia|reflexivity].
Qed.

Lemma countHeader_count v n :
  parseInt10 v = Num n -> 0 <= n -> ApiFetch.countHeader (Some v) = Some (Num n).
Proof.
  intros H Hn. unfold ApiFetch.countHeader.
  destruct v as [|c v']; [discriminate H|]. cbn [truthy]. rewrite H.
  cbn [isNaN ge0 negb andb]. destruct (Z.leb_spec 0 n); [reflexivity|lia].
Qed.

(** The numbers the adapter stores and returns are never [NaN]. *)
Lemma countHeader_number raw v : ApiFetch.countHeader raw = Some v -> isNaN v = false.
Proof.
  unfold ApiFetch.countHeader. destruct (truthy raw) as [s|]; [|discriminate].
  destruct (parseInt10 s) as [|n]; simpl; [discriminate|].
  destruct (0 <=? n); [|discriminate]. intros H. inversion H. reflexivity.
Qed.

(** C8. Whatever the status of a received response and whether its body
    decodes or not, the outcome has [total = 42] for a header
    [Results-Matching: 42] (the parsed number, for any value that
    [parseInt] reads as a number from 0 to 2^53), and has no [total] for a
    value that [parseInt] reads as [NaN] or as a negative number; the same
    holds of [skipped] and [Results-Skipped]. *)
Theorem metadata_counts op w s response :
  answers w (Return response) ->
  serialisable JSON_stringify op ->
  exists r,
    resolved (perform op w s) = Some r /\
    (Headers_get (Response.headers response) "Results-Matching" = Some "42" ->
     IApiResponse.total r = Some (Num 42)) /\
    (forall v, Headers_get (Response.headers response) "Results-Matching" = Some v ->
       (parseInt10 v = NaN -> IApiResponse.total r = None) /\
       (forall n, parseInt10 v = Num n -> n < 0 -> IApiResponse.total r = None) /\
       (forall n, parseInt10 v = Num n -> 0 <= n <= 2 ^ 53 ->
                  IApiResponse.total r = Some (Num n))) /\
    (Headers_get (Response.headers response) "Results-Skipped" = Some "42" ->
     IApiResponse.skipped r = Some (Num 42)) /\
    (forall v, Headers_get (Response.headers response) "Results-Skipped" = Some v ->
       (parseInt10 v = NaN -> IApiResponse.skipped r = None) /\
       (forall n, parseInt10 v = Num n -> n < 0 -> IApiResponse.skipped r = None) /\
       (forall n, parseInt10 v = Num n -> 0 <= n <= 2 ^ 53 ->
                  IApiResponse.skipped r = Some (Num n))).
Proof.
  intros Hw Hs.
  destruct (perform_settled op w s _ Hw Hs) as (s0 & H & _).
  destruct (received_metadata response (bodyType op) (now w) s0)
    as (r & Hr & Ht & Hk & _).
  exists r. split.
  { unfold resolved. rewrite H, request_run, Hr. reflexivity. }
  rewrite Ht, Hk.
  split; [intros ->; reflexivity|].
  split; [intros v ->; split; [|split]; intros;
          [apply countHeader_NaN | eapply countHeader_negative
          | apply countHeader_count]; solve [eassumption | lia]|].
  split; [intros ->; reflexivity|].
  intros v ->; split; [|split]; intros;
    [apply countHeader_NaN | eapply countHeader_negative
    | apply countHeader_count]; solve [eassumption | lia].
Qed.

(** *** Clock skew *)

Lemma cached_cache o s :
  cached (cache o s) = match o with Some d => d | None => cached s end.
Proof. destruct o; reflexivity. Qed.

(** The skew an operation leaves in the cache. *)
Lemma perform_cached op w s c :
  answers w c -> serialisable JSON_stringify op ->
  cached (snd (perform op w s)) =
  match observed Date_getTime c (now w) with Some d => d | None => cached s end.
Proof.
  intros Hw Hs.
  destruct (perform_settled op w s _ Hw Hs) as (s0 & _ & H0 & ->).
  rewrite request_run. destruct c as [response|e]; simpl.
  - destruct (handleResponse_resolves response (bodyType op) (now w) s0) as [r ->].
    simpl. rewrite cached_cache, H0. reflexivity.
  - exact H0.
Qed.

Lemma performAll_cached
    (calls : list (Operation File Body * World File * completion Response.t)) s :
  Forall (fun x => answers (snd (fst x)) (snd x) /\
                   serialisable JSON_stringify (fst (fst x))) calls ->
  cached (performAll JSON_stringify Date_getTime config (map fst calls) s) =
  lastObserved Date_getTime (map (fun x => (snd x, now (snd (fst x)))) calls) (cached s).
Proof.
  intros H. revert s. induction H as [|[[op w] c] calls [Hw Hs] _ IH]; intros s.
  - reflexivity.
  - simpl. rewrite IH. f_equal. apply perform_cached; assumption.
Qed.

(** C9. When a received response has a [Date] header that is a valid date,
    the skew [now - date] is attached to the outcome and cached; when the
    header is not a valid date, the outcome has no [serverDateDiff] and the
    cache keeps its value; [getServerDateDiff] returns 0 on a fresh instance
    and, after any series of calls, the last skew observed. *)
Theorem clock_skew :
  Date_getTime EmptyString = NaN ->
  (forall op w s response d t,
      answers w (Return response) -> serialisable JSON_stringify op ->
      Headers_get (Response.headers response) "Date" = Some d ->
      Date_getTime d = Num t ->
      (exists r, resolved (perform op w s) = Some r /\
                 IApiResponse.serverDateDiff r = Some (Num (now w - t))) /\
      fst (ApiFetch.getServerDateDiff (snd (perform op w s))) = Return (Num (now w - t))) /\
  (forall op w s response d,
      answers w (Return response) -> serialisable JSON_stringify op ->
      Headers_get (Response.headers response) "Date" = Some d ->
      Date_getTime d = NaN ->
      (exists r, resolved (perform op w s) = Some r /\
                 IApiResponse.serverDateDiff r = None) /\
      fst (ApiFetch.getServerDateDiff (snd (perform op w s))) =
      fst (ApiFetch.getServerDateDiff s)) /\
  fst (ApiFetch.getServerDateDiff ApiFetch.init) = Return (Num 0) /\
  (forall calls : list (Operation File Body * World File * completion Response.t),
      Forall (fun x => answers (snd (fst x)) (snd x) /\
                       serialisable JSON_stringify (fst (fst x))) calls ->
      fst (ApiFetch.getServerDateDiff
             (performAll JSON_stringify Date_getTime config (map fst calls) ApiFetch.init)) =
      Return (lastObserved Date_getTime
                (map (fun x => (snd x, now (snd (fst x)))) calls) (Num 0))).
Proof.
  intros Hempty.
  assert (Hskew : forall response now d,
             Headers_get (Response.headers response) "Date" = Some d ->
             skew response now =
             match Date_getTime d with Num t => Some (Num (now - t)) | NaN => None end).
  { intros response now d Hd. unfold Vocabulary.skew. rewrite Hd.
    destruct d; [simpl; rewrite Hempty|]; reflexivity. }
  assert (Hout : forall op w s response,
             answers w (Return response) -> serialisable JSON_stringify op ->
             exists r, resolved (perform op w s) = Some r /\
                       IApiResponse.serverDateDiff r = skew response (now w)).
  { intros op w s response Hw Hs.
    destruct (perform_settled op w s _ Hw Hs) as (s0 & H & _).
    destruct (received_metadata response (bodyType op) (now w) s0)
      as (r & Hr & _ & _ & _ & Hd).
    exists r. split; [|exact Hd].
    unfold resolved. rewrite H, request_run, Hr. reflexivity. }
  split; [|split; [|split]].
  - intros op w s response d t Hw Hs Hd Ht. split.
    + destruct (Hout op w s response Hw Hs) as (r & Hr & Hsk).
      exists r. rewrite Hsk, (Hskew _ _ _ Hd), Ht. auto.
    + unfold ApiFetch.getServerDateDiff. simpl. f_equal.
      change (cached (snd (perform op w s)) = Num (now w - t)).
      rewrite (perform_cached op w s _ Hw Hs). simpl.
      rewrite (Hskew _ _ _ Hd), Ht. reflexivity.
  - intros op w s response d Hw Hs Hd Ht. split.
    + destruct (Hout op w s response Hw Hs) as (r & Hr & Hsk).
      exists r. rewrite Hsk, (Hskew _ _ _ Hd), Ht. auto.
    + unfold ApiFetch.getServerDateDiff. simpl. f_equal.
      change (cached (snd (perform op w s)) = cached s).
      rewrite (perform_cached op w s _ Hw Hs). simpl.
      rewrite (Hskew _ _ _ Hd), Ht. reflexivity.
  - reflexivity.
  - intros calls H. unfold ApiFetch.getServerDateDiff. simpl. f_equal.
    exact (performAll_cached calls ApiFetch.init H).
Qed.

End Properties.

(** *** The two URL composers *)

Lemma absolute_has_no_leading_slash path :
  ApiFetch.pattern_test path = true -> startsWith path "/" = false.
Proof.
  unfold ApiFetch.pattern_test, startsWith.
  destruct path as [|c rest]; [reflexivity|].
  intros H. cbn [String.prefix].
  destruct (ascii_dec "/" c) as [<-|_]; [|reflexivity].
  vm_compute in H. discriminate H.
Qed.

(** C5, amended. The per-call composer does not look for [http://] or
    [https://]: it puts a slash before every path that does not start with
    one (an absolute URL is such a path) and prefixes the base URL as it
    is, so a doubled slash is reproduced and a missing one is supplied;
    when a non-empty token is configured it appends ["token=<token>"] after
    ['&'] if the path has a ['?'] and after ['?'] otherwise. *)
Theorem composeUrl_amended config endpoint :
  let separator := if includes endpoint "?" then "&" else "?" in
  (startsWith endpoint "/" = true ->
     (truthy (token config) = None ->
        ApiFetch.composeUrl config endpoint = apiUrl config ++ endpoint) /\
     (forall t, truthy (token config) = Some t ->
        ApiFetch.composeUrl config endpoint =
        (apiUrl config ++ endpoint) ++ separator ++ "token=" ++ t)) /\
  (startsWith endpoint "/" = false ->
     (truthy (token config) = None ->
        ApiFetch.composeUrl config endpoint = apiUrl config ++ "/" ++ endpoint) /\
     (forall t, truthy (token config) = Some t ->
        ApiFetch.composeUrl config endpoint =
        (apiUrl config ++ "/" ++ endpoint) ++ separator ++ "token=" ++ t)) /\
  (ApiFetch.pattern_test endpoint = true -> startsWith endpoint "/" = false).
Proof.
  unfold ApiFetch.composeUrl. split; [|split].
  - intros Hslash. rewrite Hslash. split.
    + intros ->. reflexivity.
    + intros t ->. reflexivity.
  - intros Hslash. rewrite Hslash. split.
    + intros ->. reflexivity.
    + intros t ->. reflexivity.
  - apply absolute_has_no_leading_slash.
Qed.

(** The reference [URL] instance on strings it returns as they are. *)

Lemma append_nil_r s : s ++ EmptyString = s.
Proof. induction s as [|c s IH]; simpl; [|rewrite IH]; reflexivity. Qed.

Lemma append_assoc a b c : (a ++ b) ++ c = a ++ b ++ c.
Proof. induction a as [|x a IH]; simpl; [|rewrite IH]; reflexivity. Qed.

Lemma substring_all s : substring 0 (String.length s) s = s.
Proof. induction s as [|c s IH]; simpl; [|rewrite IH]; reflexivity. Qed.

Lemma prefix_split p s :
  String.prefix p s = true -> s = p ++ PlainURL.dropPrefix (String.length p) s.
Proof.
  unfold PlainURL.dropPrefix. revert s.
  induction p as [|a p IH]; intros s H.
  - simpl. rewrite Nat.sub_0_r, substring_all. reflexivity.
  - destruct s as [|b s]; [discriminate H|].
    cbn [String.prefix] in H. destruct (ascii_dec a b) as [<-|]; [|discriminate H].
    simpl. f_equal. apply IH. exact H.
Qed.

Lemma has_cons c a s : has c (String a s) = Ascii.eqb a c || has c s.
Proof.
  unfold has. cbn [includes String.prefix].
  destruct (ascii_dec c a) as [<-|N].
  - rewrite Ascii.eqb_refl. destruct s; reflexivity.
  - destruct (Ascii.eqb_spec a c) as [->|_]; [contradiction N; reflexivity|reflexivity].
Qed.

Lemma has_app c a b : has c (a ++ b) = has c a || has c b.
Proof.
  induction a as [|x a IH].
  - reflexivity.
  - cbn [append]. rewrite !has_cons, IH, orb_assoc. reflexivity.
Qed.

Lemma cut_some c s l r : PlainURL.cut c s = (l, Some r) -> s = l ++ String c r.
Proof.
  revert l. induction s as [|a s IH]; intros l H; [discriminate H|].
  cbn [PlainURL.cut] in H. destruct (Ascii.eqb_spec a c) as [->|_].
  - inversion H. reflexivity.
  - destruct (PlainURL.cut c s) as [l' r'] eqn:E. inversion H; subst.
    simpl. f_equal. apply IH. reflexivity.
Qed.

Lemma cut_none c s l : PlainURL.cut c s = (l, None) -> l = s /\ has c s = false.
Proof.
  revert l. induction s as [|a s IH]; intros l H.
  - inversion H. split; reflexivity.
  - cbn [PlainURL.cut] in H. rewrite has_cons.
    destruct (Ascii.eqb a c); [discriminate H|].
    destruct (PlainURL.cut c s) as [l' r'] eqn:E. inversion H; subst.
    destruct (IH l' eq_refl) as [-> ->]. split; reflexivity.
Qed.

(** What [parse] found: the scheme, and the query and fragment where the
    first ['#'] and the first ['?'] before it cut the rest. *)
Lemma parse_inv s u :
  PlainURL.parse s = Some u ->
  exists sch rest,
    s = sch ++ "://" ++ rest /\ has "?" (sch ++ "://") = false /\
    PlainURL.parseRest sch rest = Some u.
Proof.
  unfold PlainURL.parse. intros H.
  destruct (PlainURL.forallb_string _ s); [|discriminate H].
  destruct (String.prefix "http://" s) eqn:P1.
  - exists "http", (PlainURL.dropPrefix 7 s). repeat split; [|exact H].
    apply (prefix_split "http://" s P1).
  - destruct (String.prefix "https://" s) eqn:P2; [|discriminate H].
    exists "https", (PlainURL.dropPrefix 8 s). repeat split; [|exact H].
    apply (prefix_split "https://" s P2).
Qed.

Lemma parseRest_inv sch rest u :
  PlainURL.parseRest sch rest = Some u ->
  PlainURL.fragment u = None ->
  has "?" rest = match PlainURL.query u with Some _ => true | None => false end.
Proof.
  unfold PlainURL.parseRest. intros H Hf.
  destruct (PlainURL.cut "#" rest) as [bh frag] eqn:E1.
  destruct (PlainURL.cut "?" bh) as [bq q] eqn:E2.
  destruct (PlainURL.cut "/" bq) as [auth p] eqn:E3.
  destruct (PlainURL.pathOK _); [|discriminate H].
  destruct (PlainURL.parseAuthority sch auth) as [[h port]|]; [|discriminate H].
  inversion H; subst u; clear H. simpl in *.
  destruct frag as [f|]; [discriminate Hf|].
  apply cut_none in E1. destruct E1 as [-> _].
  destruct q as [q|].
  - apply cut_some in E2. rewrite E2, has_app, has_cons. simpl. apply orb_true_r.
  - apply cut_none in E2. apply E2.
Qed.

Lemma includes_query s u :
  PlainURL.parse s = Some u -> PlainURL.fragment u = None ->
  includes s "?" = match PlainURL.query u with Some _ => true | None => false end.
Proof.
  intros H Hf. destruct (parse_inv s u H) as (sch & rest & -> & Hs & Hr).
  change (includes (sch ++ "://" ++ rest) "?") with (has "?" (sch ++ "://" ++ rest)).
  rewrite <- append_assoc, has_app, Hs. simpl. apply (parseRest_inv sch rest u Hr Hf).
Qed.

Lemma concat_snoc sep l x :
  l <> [] -> String.concat sep (l ++ [x]) = String.concat sep l ++ sep ++ x.
Proof.
  induction l as [|a l IH]; intros H; [contradiction H; reflexivity|].
  destruct l as [|b l].
  - reflexivity.
  - change (String.concat sep ((a :: b :: l) ++ [x]))
      with (a ++ sep ++ String.concat sep ((b :: l) ++ [x])).
    rewrite IH by discriminate.
    change (String.concat sep (a :: b :: l)) with (a ++ sep ++ String.concat sep (b :: l)).
    rewrite !append_assoc. reflexivity.
Qed.

(** On a normalised URL, appending a form-safe parameter is appending text. *)
Lemma normalised_append s name value :
  PlainURL.normalised s = true ->
  PlainURL.formSafe name = true -> PlainURL.formSafe value = true ->
  withParam s name value =
  Some (s ++ (if includes s "?" then "&" else "?") ++ name ++ "=" ++ value).
Proof.
  unfold PlainURL.normalised, PlainURL.formSafe, withParam. simpl.
  destruct (PlainURL.parse s) as [u|] eqn:Hp; [|discriminate].
  intros H Hn Hv. apply andb_prop in H. destruct H as [H Hq].
  apply andb_prop in H. destruct H as [Hs Hf].
  apply String.eqb_eq in Hs, Hn, Hv.
  destruct (PlainURL.fragment u) as [f|] eqn:Ef; [discriminate Hf|].
  rewrite (includes_query s u Hp Ef). simpl. f_equal.
  rewrite <- Hs. unfold PlainURL.toString, PlainURL.append.
  cbn [PlainURL.scheme PlainURL.host PlainURL.port PlainURL.pathname
       PlainURL.query PlainURL.fragment].
  rewrite Ef. destruct (PlainURL.query u) as [q|] eqn:Eq.
  - apply andb_prop in Hq. destruct Hq as [Hne Hcanon].
    apply String.eqb_eq in Hcanon.
    unfold PlainURL.serializeQuery. rewrite map_app. cbn [map fst snd].
    rewrite concat_snoc.
    + fold (PlainURL.serializeQuery (PlainURL.parseQuery q)). rewrite Hcanon.
      rewrite Hn, Hv, !append_nil_r, !append_assoc. reflexivity.
    + intros E. apply (f_equal (String.concat "&")) in E.
      fold (PlainURL.serializeQuery (PlainURL.parseQuery q)) in E.
      rewrite Hcanon in E. simpl in E. subst q. discriminate Hne.
  - cbn [app map fst snd String.concat PlainURL.serializeQuery].
    rewrite Hn, Hv, !append_nil_r, !append_assoc. reflexivity.
Qed.

(** C7, amended. [composePath] works on [path] itself when it matches
    [^(http|https)://] and on base URL + [path] otherwise.  With no token
    configured (absent or empty) it returns that string unmodified.  With a
    token it returns the serialisation of the [URL] object built from that
    string, after [access_token=<token>] has been appended to its search
    parameters, and it throws when the string is not a URL.  On a string
    that is a normalised plain http(s) URL without fragment, with a token
    that form-urlencoding leaves as it is, the serialisation is the string
    followed by [?access_token=<token>], or by [&access_token=<token>] when
    the string has a ['?']. *)
Theorem composePath_amended (U : URLClass) config path :
  let p := if ApiFetch.pattern_test path then path else apiUrl config ++ path in
  (ApiFetch.pattern_test path = true -> p = path) /\
  (ApiFetch.pattern_test path = false -> p = apiUrl config ++ path) /\
  (truthy (token config) = None -> ApiFetch.composePath U config path = Return p) /\
  (forall t u, truthy (token config) = Some t -> URL_new U p = Some u ->
     ApiFetch.composePath U config path =
     Return (URL_toString U (URL_append U u "access_token" t))) /\
  (forall t, truthy (token config) = Some t -> URL_new U p = None ->
     ApiFetch.composePath U config path = Throw InvalidURL) /\
  (forall t, truthy (token config) = Some t ->
     PlainURL.normalised p = true -> PlainURL.formSafe t = true ->
     ApiFetch.composePath plainURL config path =
     Return (p ++ (if includes p "?" then "&" else "?") ++ "access_token=" ++ t)).
Proof.
  unfold ApiFetch.composePath. repeat split.
  - intros ->. reflexivity.
  - intros ->. reflexivity.
  - intros ->. reflexivity.
  - intros t u -> ->. reflexivity.
  - intros t -> ->. reflexivity.
  - intros t -> Hp Ht.
    pose proof (normalised_append _ "access_token" t Hp eq_refl Ht) as H.
    unfold withParam in H.
    destruct (URL_new plainURL _) as [u|]; [|discriminate H].
    injection H as H. f_equal. exact H.
Qed.

(** C10. With a token configured, [composePath] builds a [URL] object from
    base URL + [path] (from [path] itself if it is absolute) and appends
    [access_token] to it: when that string is not a parseable absolute URL
    the call throws a [TypeError] instead of returning a string, and there
    are such inputs.  With no token configured it never throws and returns
    the string as it is. *)
Theorem composePath_throws_on_unparseable :
  (forall (U : URLClass) config path t,
     truthy (token config) = Some t ->
     URL_new U (if ApiFetch.pattern_test path then path else apiUrl config ++ path) = None ->
     ApiFetch.composePath U config path = Throw (ErrorObj "TypeError" "Invalid URL")) /\
  (forall (U : URLClass) config path t u,
     truthy (token config) = Some t ->
     URL_new U (if ApiFetch.pattern_test path then path else apiUrl config ++ path) = Some u ->
     ApiFetch.composePath U config path =
     Return (URL_toString U (URL_append U u "access_token" t))) /\
  (exists config path t,
     truthy (token config) = Some t /\
     ApiFetch.composePath plainURL config path = Throw (ErrorObj "TypeError" "Invalid URL")) /\
  (forall (U : URLClass) config path,
     truthy (token config) = None ->
     ApiFetch.composePath U config path =
     Return (if ApiFetch.pattern_test path then path else apiUrl config ++ path)).
Proof.
  unfold ApiFetch.composePath. repeat split.
  - intros U config path t -> ->. reflexivity.
  - intros U config path t u -> ->. reflexivity.
  - exists (conf EmptyString (Some "t")), "/redirect", "t". split; reflexivity.
  - intros U config path ->. reflexivity.
Qed.

(** * Concrete runs *)

(** ** The platform functions *)

Example parseInt10_42 : parseInt10 "42" = Num 42.
Proof. reflexivity. Qed.

Example parseInt10_abc : parseInt10 "abc" = NaN.
Proof. reflexivity. Qed.

Example parseInt10_neg : parseInt10 " -7x" = Num (-7).
Proof. reflexivity. Qed.

Example decimal_500 : decimal 500 = "500".
Proof. reflexivity. Qed.

Example decimal_0 : decimal 0 = "0".
Proof. reflexivity. Qed.

Example plainURL_docs :
  withParam "http://localhost:3001/t/acme-corp/v1/redirect" "access_token" "abc123"
  = Some "http://localhost:3001/t/acme-corp/v1/redirect?access_token=abc123".
Proof. reflexivity. Qed.

Example plainURL_query :
  withParam "https://h.example/a?x=1" "access_token" "t"
  = Some "https://h.example/a?x=1&access_token=t".
Proof. reflexivity. Qed.

Example plainURL_fragment :
  withParam "http://h/a#b" "access_token" "t" = Some "http://h/a?access_token=t#b".
Proof. reflexivity. Qed.

Example plainURL_root :
  withParam "http://h" "access_token" "t" = Some "http://h/?access_token=t".
Proof. reflexivity. Qed.

Example plainURL_base64 :
  withParam "http://h:80/a" "access_token" "ab+/=" = Some "http://h/a?access_token=ab%2B%2F%3D".
Proof. reflexivity. Qed.

Example plainURL_relative : withParam "/redirect" "access_token" "t" = None.
Proof. reflexivity. Qed.

(** ** The scenarios of the specification *)

Example scenario_success :
  resolved (perform mockStringify mockDate base (Get "/things" None)
              (answering (Return things200) 0) ApiFetch.init) =
  Some (IApiResponse.mk true (Some 200%N)
          (Some (JArray [JObject [("id", JString "1")]])) None None None None None).
Proof. reflexivity. Qed.

Example scenario_abort :
  resolved (perform mockStringify mockDate base (Get "/things" None)
              (answering (Throw AbortError) 0) ApiFetch.init) =
  Some (IApiResponse.mk false None None
          (Some (IApiError.mk "Request aborted" None None)) None None None None).
Proof. reflexivity. Qed.

Example scenario_no_content :
  resolved (perform mockStringify mockDate base (Delete "/things/1")
              (answering (Return (Response.mk 204 "No Content" [("Link", "<http://h/api/next>")]
                                    (Throw (ErrorObj "SyntaxError" "Unexpected end of JSON input"))
                                    (Return EmptyString))) 0) ApiFetch.init) =
  Some (IApiResponse.mk true (Some 204%N) None None None None
          (Some "<http://h/api/next>") None).
Proof. reflexivity. Qed.

(** ** Where the code departs from the claims *)

(** C2, as stated, fails: the message of the 500 scenario starts with a
    capital letter. *)
Lemma request_failed_message_differs :
  messageOf (perform mockStringify mockDate base (Get "/things" None)
               (answering (Return boom500) 0) ApiFetch.init)
  = Some "Request failed: 500 Internal Server Error" /\
  messageOf (perform mockStringify mockDate base (Get "/things" None)
               (answering (Return boom500) 0) ApiFetch.init)
  <> Some "request failed: 500 Internal Server Error".
Proof. split; [reflexivity|discriminate]. Qed.

(** C3, as stated, fails: the parse-failure message of a 200 with a body
    that is not JSON is not ["failed to parse <kind> response"] for any
    kind. *)
Lemma parse_failure_message_differs :
  messageOf (perform mockStringify mockDate base (Get "/things" None)
               (answering (Return garbled200) 12000) ApiFetch.init)
  = Some "Failed to parse JSON response" /\
  forall kind : string,
    messageOf (perform mockStringify mockDate base (Get "/things" None)
                 (answering (Return garbled200) 12000) ApiFetch.init)
    <> Some ("failed to parse " ++ kind ++ " response").
Proof. split; [reflexivity|intros kind; discriminate]. Qed.

(** C4, as stated, fails: the generic message for a thrown value that is
    not an [Error] starts with a capital letter. *)
Lemma network_failure_message_differs :
  messageOf (perform mockStringify mockDate base (Get "/things" None)
               (answering (Throw (NonError "offline")) 0) ApiFetch.init)
  = Some "Network request failed" /\
  messageOf (perform mockStringify mockDate base (Get "/things" None)
               (answering (Throw (NonError "offline")) 0) ApiFetch.init)
  <> Some "network request failed".
Proof. split; [reflexivity|discriminate]. Qed.

Example empty_message_is_kept :
  messageOf (perform mockStringify mockDate base (Get "/things" None)
               (answering (Throw (ErrorObj "TypeError" EmptyString)) 0) ApiFetch.init)
  = Some EmptyString.
Proof. reflexivity. Qed.

(** C5, as stated, fails: an absolute URL is not returned unchanged, and a
    missing slash is supplied. *)
Lemma composeUrl_prefixes_absolute :
  ApiFetch.composeUrl base "https://x/y" = "http://h/api/https://x/y" /\
  ApiFetch.composeUrl base "https://x/y" <> "https://x/y" /\
  ApiFetch.composeUrl base "things" = "http://h/api/things" /\
  ApiFetch.composeUrl base "things" <> "http://h/api" ++ "things".
Proof. repeat split; discriminate. Qed.

(** C7, as stated, fails: with a token, a path with a fragment gets the
    parameter before the fragment, not appended to base URL + path. *)
Lemma composePath_inserts_before_fragment :
  ApiFetch.composePath plainURL (conf "http://h/api" (Some "t")) "/a#b"
  = Return "http://h/api/a?access_token=t#b" /\
  ApiFetch.composePath plainURL (conf "http://h/api" (Some "t")) "/a#b"
  <> Return ("http://h/api" ++ "/a#b" ++ "?access_token=t").
Proof. split; [reflexivity|discriminate]. Qed.

Example composePath_docs :
  ApiFetch.composePath plainURL (conf "http://localhost:3001/t/acme-corp/v1" (Some "abc123"))
    "/redirect"
  = Return "http://localhost:3001/t/acme-corp/v1/redirect?access_token=abc123".
Proof. reflexivity. Qed.

Example composePath_encodes_token :
  ApiFetch.composePath plainURL (conf "http://h/api" (Some "ab+/=")) "https://x.example/cb?s=1"
  = Return "https://x.example/cb?s=1&access_token=ab%2B%2F%3D".
Proof. reflexivity. Qed.

Example composePath_relative_base :
  ApiFetch.composePath plainURL (conf EmptyString (Some "t")) "/redirect" = Throw InvalidURL.
Proof. reflexivity. Qed.

(** ** The auto-cancel slot *)

(** The [finally] block of an auto-cancel call empties the slot whatever
    controller it holds. *)
Lemma finally_empties_slot {A} (m : ApiFetch.M A) options s :
  usesAbort options = true ->
  ApiFetch.controller
    (ApiFetch.this (snd (ApiFetch.try_finally m (ApiFetch.doGet_finally options) s))) = None.
Proof.
  intros H. unfold ApiFetch.try_finally, ApiFetch.doGet_finally. rewrite H.
  destruct (m s) as [c s']. reflexivity.
Qed.

(** Issuing an auto-cancel call aborts the controller in the slot (and
    nothing when the slot is empty), and puts a new controller there, whose
    signal the request gets. *)
Lemma enter_aborts_slot options s :
  usesAbort options = true ->
  ApiFetch.doGet_enter options s =
  (Return (Some (ControllerSignal (ApiFetch.allocated s))),
   {| ApiFetch.this :=
        ApiFetch.mk (ApiFetch.serverDateDiff (ApiFetch.this s))
          (Some (ApiFetch.allocated s));
      ApiFetch.allocated := S (ApiFetch.allocated s);
      ApiFetch.aborted :=
        match ApiFetch.controller (ApiFetch.this s) with
        | Some c => c :: ApiFetch.aborted s
        | None => ApiFetch.aborted s
        end |}).
Proof.
  intros H. unfold ApiFetch.doGet_enter, ApiFetch.bind, ApiFetch.get_controller.
  rewrite H. destruct (ApiFetch.controller (ApiFetch.this s)); reflexivity.
Qed.

(** A call without [useAbort] keeps the caller's signal and touches neither
    the slot nor any controller, when it is issued and when it settles. *)
Lemma manual_call_leaves_slot options s :
  usesAbort options = false ->
  ApiFetch.doGet_enter options s =
  (Return match options with Some o => signal o | None => None end, s) /\
  ApiFetch.doGet_finally options s = (Return tt, s).
Proof.
  intros H. unfold ApiFetch.doGet_enter, ApiFetch.doGet_finally. rewrite H.
  split; reflexivity.
Qed.

(** C6. Three auto-cancel searches on one instance.  The second cancels
    the first and takes the slot.  The first then settles as aborted, and
    its [finally] block empties the slot although the slot holds the
    controller of the second call.  The third call therefore finds the slot
    empty: it is issued without cancelling the second call, which is still
    in flight. *)
Theorem auto_cancel_slot_lost :
  let after2 := run (File := unit) mockDate base (firstn 2 typing) start in
  let after3 := run (File := unit) mockDate base (firstn 3 typing) start in
  let after4 := run (File := unit) mockDate base typing start in
  (cancelled after2 0 = true /\
   ApiFetch.controller (ApiFetch.this (store after2)) = Some 1%nat) /\
  (lookup 0 (settled after3) = Some (Return (ApiFetch.handleError AbortError)) /\
   option_map signal_ (lookup 1 (inflight after3)) = Some (Some (ControllerSignal 1%nat)) /\
   ApiFetch.controller (ApiFetch.this (store after3)) = None) /\
  (option_map signal_ (lookup 1 (inflight after4)) = Some (Some (ControllerSignal 1%nat)) /\
   option_map signal_ (lookup 2 (inflight after4)) = Some (Some (ControllerSignal 2%nat)) /\
   ApiFetch.aborted (store after4) = [0%nat] /\
   cancelled after4 1 = false).
Proof. vm_compute. repeat split. Qed.

(** ** Instances of the theorems *)

Lemma http_error_outcome_witness :
  resolved (perform mockStringify mockDate base (Get "/things" None)
              (answering (Return boom500) 0) ApiFetch.init) =
  Some (IApiResponse.mk false (Some 500%N)
          (Some (JObject [("message", JString "boom")]))
          (Some (IApiError.mk "Request failed: 500 Internal Server Error"
                   (Some 500%N) (Some "Internal Server Error")))
          None None None None).
Proof.
  apply (http_error_outcome (File := unit) mockStringify mockDate base
           (Get "/things" None) (answering (Return boom500) 0) ApiFetch.init boom500
           (JObject [("message", JString "boom")])).
  - intros url init. reflexivity.
  - intros b Hb. discriminate Hb.
  - reflexivity.
  - reflexivity.
Defined.

Lemma undecodable_body_outcome_witness :
  resolved (perform mockStringify mockDate base (Post "/things" "{}" None)
              (answering (Return garbled200) 12000) ApiFetch.init) =
  Some (IApiResponse.mk false (Some 200%N) None
          (Some (IApiError.mk "Failed to parse JSON response" None None))
          (Some (Num 42)) None None (Some (Num 2000))).
Proof.
  apply (undecodable_body_outcome (File := unit) mockStringify mockDate base
           (Post "/things" "{}" None) (answering (Return garbled200) 12000)
           ApiFetch.init garbled200
           (ErrorObj "SyntaxError" "Unexpected token < in JSON at position 0")).
  - intros url init. reflexivity.
  - intros b Hb. exists (Some b). reflexivity.
  - discriminate.
  - reflexivity.
Defined.

Lemma thrown_error_outcome_witness :
  resolved (perform mockStringify mockDate base (GetText "/motd")
              (answering (Throw (ErrorObj "TypeError" "Failed to fetch")) 0) ApiFetch.init) =
  Some (IApiResponse.mk false None None
          (Some (IApiError.mk "Failed to fetch" None None)) None None None None).
Proof.
  apply (thrown_error_outcome (File := unit) mockStringify mockDate base
           (GetText "/motd") (answering (Throw (ErrorObj "TypeError" "Failed to fetch")) 0)
           ApiFetch.init (ErrorObj "TypeError" "Failed to fetch")).
  - intros url init. reflexivity.
  - intros b Hb. discriminate Hb.
Defined.

Lemma composeUrl_amended_witness :
  ApiFetch.composeUrl (conf "http://h/api/" (Some "t")) "/things?limit=2"
  = "http://h/api//things?limit=2&token=t" /\
  ApiFetch.composeUrl (conf "http://h/api" None) "http://x/y" = "http://h/api/http://x/y" /\
  startsWith "http://x/y" "/" = false.
Proof.
  destruct (composeUrl_amended (conf "http://h/api/" (Some "t")) "/things?limit=2")
    as (Hslash & _ & _).
  destruct (composeUrl_amended (conf "http://h/api" None) "http://x/y")
    as (_ & Hbare & Habs).
  split; [|split].
  - apply (proj2 (Hslash eq_refl) "t"). reflexivity.
  - apply (proj1 (Hbare eq_refl)). reflexivity.
  - apply Habs. reflexivity.
Defined.

Lemma composePath_amended_witness :
  ApiFetch.composePath plainURL (conf "http://h/api" None) "/a#b" = Return "http://h/api/a#b" /\
  ApiFetch.composePath plainURL (conf "http://h/api" (Some "t")) "https://x.example/cb"
  = Return "https://x.example/cb?access_token=t" /\
  ApiFetch.composePath plainURL (conf "h/api" (Some "t")) "/a" = Throw InvalidURL /\
  ApiFetch.composePath plainURL (conf "http://h/api" (Some "t")) "/things?limit=2"
  = Return "http://h/api/things?limit=2&access_token=t".
Proof.
  destruct (composePath_amended plainURL (conf "http://h/api" None) "/a#b")
    as (_ & _ & Hnone & _).
  destruct (composePath_amended plainURL (conf "http://h/api" (Some "t")) "https://x.example/cb")
    as (_ & _ & _ & Hurl & _).
  destruct (composePath_amended plainURL (conf "h/api" (Some "t")) "/a")
    as (_ & _ & _ & _ & Hthrow & _).
  destruct (composePath_amended plainURL (conf "http://h/api" (Some "t")) "/things?limit=2")
    as (_ & _ & _ & _ & _ & Hplain).
  split; [|split; [|split]].
  - apply Hnone. reflexivity.
  - apply (Hurl "t" (PlainURL.mk "https" "x.example" None "/cb" None None));
      reflexivity.
  - apply (Hthrow "t"); reflexivity.
  - apply (Hplain "t"); reflexivity.
Defined.

Lemma metadata_counts_witness :
  exists r,
    resolved (perform mockStringify mockDate base (Get "/things" None)
                (answering (Return garbled200) 12000) ApiFetch.init) = Some r /\
    IApiResponse.total r = Some (Num 42) /\ IApiResponse.skipped r = None.
Proof.
  destruct (metadata_counts (File := unit) mockStringify mockDate base
              (Get "/things" None) (answering (Return garbled200) 12000) ApiFetch.init
              garbled200)
    as (r & Hr & Htotal & _ & _ & Hskipped).
  - intros url init. reflexivity.
  - intros b Hb. discriminate Hb.
  - exists r. split; [exact Hr|]. split.
    + apply Htotal. reflexivity.
    + apply (proj1 (Hskipped "abc" eq_refl)). reflexivity.
Defined.

Lemma clock_skew_witness :
  fst (ApiFetch.getServerDateDiff
         (performAll mockStringify mockDate base
            [(Get "/a" None, answering (Return garbled200) 12000);
             (Get "/b" None, answering (Return undated404) 50000);
             (Get "/c" auto, answering (Throw AbortError) 60000)]
            ApiFetch.init)) = Return (Num 2000) /\
  (exists r,
      resolved (perform mockStringify mockDate base (Get "/a" None)
                  (answering (Return garbled200) 12000) ApiFetch.init) = Some r /\
      IApiResponse.serverDateDiff r = Some (Num 2000)) /\
  (exists r,
      resolved (perform mockStringify mockDate base (Get "/b" None)
                  (answering (Return undated404) 50000) ApiFetch.init) = Some r /\
      IApiResponse.serverDateDiff r = None).
Proof.
  destruct (clock_skew (File := unit) mockStringify mockDate base eq_refl)
    as (Hvalid & Hinvalid & _ & Hlast).
  split; [|split].
  - apply (Hlast [(Get "/a" None, answering (Return garbled200) 12000, Return garbled200);
                  (Get "/b" None, answering (Return undated404) 50000, Return undated404);
                  (Get "/c" auto, answering (Throw AbortError) 60000, Throw AbortError)]).
    repeat constructor; intros b Hb; discriminate Hb.
  - apply (Hvalid (Get "/a" None) (answering (Return garbled200) 12000) ApiFetch.init
             garbled200 "Thu, 01 Jan 1970 00:00:10 GMT" 10000).
    + intros url init. reflexivity.
    + intros b Hb. discriminate Hb.
    + reflexivity.
    + reflexivity.
  - apply (Hinvalid (Get "/b" None) (answering (Return undated404) 50000) ApiFetch.init
             undated404 "yesterday").
    + intros url init. reflexivity.
    + intros b Hb. discriminate Hb.
    + reflexivity.
    + reflexivity.
Defined.

Lemma composePath_throws_on_unparseable_witness :
  ApiFetch.composePath plainURL (conf EmptyString (Some "t")) "/redirect"
  = Throw (ErrorObj "TypeError" "Invalid URL") /\
  ApiFetch.composePath plainURL (conf "http://h/api" (Some "t")) "/redirect"
  = Return "http://h/api/redirect?access_token=t" /\
  ApiFetch.composePath plainURL (conf EmptyString None) "/redirect" = Return "/redirect".
Proof.
  destruct composePath_throws_on_unparseable as (Hthrow & Hurl & _ & Hnone).
  split; [|split].
  - apply (Hthrow plainURL (conf EmptyString (Some "t")) "/redirect" "t"); reflexivity.
  - apply (Hurl plainURL (conf "http://h/api" (Some "t")) "/redirect" "t"
             (PlainURL.mk "http" "h" None "/api/redirect" None None)); reflexivity.
  - apply (Hnone plainURL (conf EmptyString None) "/redirect"). reflexivity.
Defined.

(** * Further properties of the adapter *)

Section Further.

Context {File Body : Type}.
Variable JSON_stringify : Body -> completion (option string).
Variable Date_getTime : string -> jsnumber.
Variable config : IApiConf.

#[local] Abbreviation handleResponse := (ApiFetch.handleResponse Date_getTime).
#[local] Abbreviation perform := (@perform File Body JSON_stringify Date_getTime config).
#[local] Abbreviation skew := (Vocabulary.skew Date_getTime).
#[local] Abbreviation metadata := (Vocabulary.metadata Date_getTime).
#[local] Abbreviation request := (Vocabulary.request Date_getTime).

(** ** Successful outcomes *)

(** X1. A response with a status in 200-299 other than 204, whose body
    decodes, gives a success that carries the status, the decoded body as
    [data], no [error], and the metadata of the headers. *)
Theorem success_outcome op w s response parsedData :
  answers w (Return response) ->
  serialisable JSON_stringify op ->
  Response.status response <> 204%N ->
  Response.ok response = true ->
  ApiFetch.decode response (bodyType op) = Return parsedData ->
  resolved (perform op w s) =
  Some {| IApiResponse.ok := true;
          IApiResponse.status := Some (Response.status response);
          IApiResponse.data := Some parsedData;
          IApiResponse.error := None;
          IApiResponse.total :=
            ApiFetch.countHeader (Headers_get (Response.headers response) "Results-Matching");
          IApiResponse.skipped :=
            ApiFetch.countHeader (Headers_get (Response.headers response) "Results-Skipped");
          IApiResponse.link := truthy (Headers_get (Response.headers response) "Link");
          IApiResponse.serverDateDiff := skew response (now w) |}.
Proof.
  intros Hw Hs H204 Hok Hd.
  destruct (perform_settled JSON_stringify Date_getTime config op w s _ Hw Hs)
    as (s0 & H & _).
  unfold resolved. rewrite H, request_run.
  rewrite (handleResponse_success _ _ _ _ _ parsedData H204 Hok Hd).
  simpl. rewrite spread_metadata. reflexivity.
Qed.

(** X2. A response with status 204 gives a success without [data] and
    without [error], whatever its body is and whether it decodes or not;
    the metadata of the headers is attached. *)
Theorem no_content_outcome op w s response :
  answers w (Return response) ->
  serialisable JSON_stringify op ->
  Response.status response = 204%N ->
  resolved (perform op w s) =
  Some {| IApiResponse.ok := true;
          IApiResponse.status := Some 204%N;
          IApiResponse.data := None;
          IApiResponse.error := None;
          IApiResponse.total :=
            ApiFetch.countHeader (Headers_get (Response.headers response) "Results-Matching");
          IApiResponse.skipped :=
            ApiFetch.countHeader (Headers_get (Response.headers response) "Results-Skipped");
          IApiResponse.link := truthy (Headers_get (Response.headers response) "Link");
          IApiResponse.serverDateDiff := skew response (now w) |}.
Proof.
  intros Hw Hs H204.
  destruct (perform_settled JSON_stringify Date_getTime config op w s _ Hw Hs)
    as (s0 & H & _).
  unfold resolved. rewrite H, request_run.
  rewrite (handleResponse_204 _ _ _ _ _ H204).
  simpl. rewrite spread_metadata. reflexivity.
Qed.

(** ** The shape of an outcome *)

Lemma request_shape c type now s0 :
  exists r,
    fst (request c type now s0) = Return r /\
    (IApiResponse.ok r = true <-> IApiResponse.error r = None) /\
    (IApiResponse.ok r = true -> IApiResponse.status r <> None) /\
    (IApiResponse.data r <> None -> IApiResponse.status r <> None) /\
    (IApiResponse.status r = None ->
     IApiResponse.total r = None /\ IApiResponse.skipped r = None /\
     IApiResponse.link r = None /\ IApiResponse.serverDateDiff r = None).
Proof.
  rewrite request_run. destruct c as [response|e].
  - destruct (N.eq_dec (Response.status response) 204) as [E|E].
    + rewrite (handleResponse_204 _ _ _ _ _ E), spread_metadata.
      eexists. split; [reflexivity|]. simpl.
      repeat split; try discriminate; auto.
    + destruct (ApiFetch.decode response type) as [d|e] eqn:Hd.
      * destruct (Response.ok response) eqn:Hok.
        -- rewrite (handleResponse_success _ _ _ _ _ d E Hok Hd), spread_metadata.
           eexists. split; [reflexivity|]. simpl.
           repeat split; try discriminate; auto.
        -- rewrite (handleResponse_failed _ _ _ _ _ d Hok Hd), spread_metadata.
           eexists. split; [reflexivity|]. simpl.
           repeat split; try discriminate; auto.
      * rewrite (handleResponse_undecodable _ _ _ _ _ e E Hd), spread_metadata.
        eexists. split; [reflexivity|]. simpl.
        repeat split; try discriminate; auto.
  - eexists. split; [reflexivity|]. unfold ApiFetch.handleError.
    destruct (match e with ErrorObj name _ => (name =? "AbortError")%string
                         | NonError _ => false end);
      simpl; repeat split; try discriminate; auto.
Qed.

(** X3. Whatever the transport and [JSON.stringify] do, the outcome of an
    operation is one of two shapes: it has an [error] exactly when [ok] is
    false; a success has a status; [data] comes only with a status; and an
    outcome without status (a thrown error) has no metadata. *)
Theorem outcome_shape op w s :
  exists r,
    resolved (perform op w s) = Some r /\
    (IApiResponse.ok r = true <-> IApiResponse.error r = None) /\
    (IApiResponse.ok r = true -> IApiResponse.status r <> None) /\
    (IApiResponse.data r <> None -> IApiResponse.status r <> None) /\
    (IApiResponse.status r = None ->
     IApiResponse.total r = None /\ IApiResponse.skipped r = None /\
     IApiResponse.link r = None /\ IApiResponse.serverDateDiff r = None).
Proof.
  destruct (perform_request JSON_stringify Date_getTime config op w s)
    as (c & s0 & H & _).
  destruct (request_shape c (bodyType op) (now w) s0) as (r & Hr & Hshape).
  exists r. split; [|exact Hshape].
  unfold resolved. rewrite H, Hr. reflexivity.
Qed.

(** X4. An operation succeeds exactly when the transport returned a
    response whose status is 204, or is in 200-299 with a body that
    decodes. *)
Theorem ok_exactly_when op w s c :
  answers w c ->
  serialisable JSON_stringify op ->
  exists r,
    resolved (perform op w s) = Some r /\
    (IApiResponse.ok r = true <->
     exists response,
       c = Return response /\
       (Response.status response = 204%N \/
        (Response.ok response = true /\
         exists d, ApiFetch.decode response (bodyType op) = Return d))).
Proof.
  intros Hw Hs.
  destruct (perform_settled JSON_stringify Date_getTime config op w s _ Hw Hs)
    as (s0 & H & _).
  unfold resolved. rewrite H, request_run. destruct c as [response|e].
  - destruct (N.eq_dec (Response.status response) 204) as [E|E].
    + rewrite (handleResponse_204 _ _ _ _ _ E), spread_metadata.
      eexists. split; [reflexivity|]. simpl. split; [|reflexivity].
      intros _. exists response. auto.
    + destruct (ApiFetch.decode response (bodyType op)) as [d|e] eqn:Hd.
      * destruct (Response.ok response) eqn:Hok.
        -- rewrite (handleResponse_success _ _ _ _ _ d E Hok Hd), spread_metadata.
           eexists. split; [reflexivity|]. simpl. split; [|reflexivity].
           intros _. exists response. split; [reflexivity|]. right. eauto.
        -- rewrite (handleResponse_failed _ _ _ _ _ d Hok Hd), spread_metadata.
           eexists. split; [reflexivity|]. simpl. split; [discriminate|].
           intros (r' & Hr' & [H204|[Hok' _]]); inversion Hr'; subst r'; congruence.
      * rewrite (handleResponse_undecodable _ _ _ _ _ e E Hd), spread_metadata.
        eexists. split; [reflexivity|]. simpl. split; [discriminate|].
        intros (r' & Hr' & [H204|[_ [d Hd']]]); inversion Hr'; subst r'; congruence.
  - eexists. split; [reflexivity|]. unfold ApiFetch.handleError.
    destruct (match e with ErrorObj name _ => (name =? "AbortError")%string
                         | NonError _ => false end);
      simpl; (split; [discriminate|]); intros (r' & Hr' & _); discriminate Hr'.
Qed.

(** ** The request an operation issues *)

(** X5. When [JSON.stringify] throws on the body of [doPost], [doPut] or
    [doPatch], no request is made: the operation resolves to the failure
    for the thrown value, leaves the store as it is, and does so whatever
    the transport and the clock are. *)
Theorem stringify_failure_makes_no_request op b e :
  jsonBody op = Some b ->
  JSON_stringify b = Throw e ->
  forall w w' s,
    perform op w s = (Return (ApiFetch.handleError e), s) /\
    perform op w s = perform op w' s.
Proof.
  intros Hb He w w' s.
  destruct op as [endpoint options|endpoint|endpoint body signal|endpoint body
                 |endpoint|endpoint body|endpoint file];
    try discriminate Hb; inversion Hb; subst b; simpl;
    unfold ApiFetch.doPost, ApiFetch.doPut, ApiFetch.doPatch;
    rewrite !request_after_stringify, He; split; reflexivity.
Qed.




(** X7. With [useAbort] set, [doGet] does not use the caller's signal: the
    outcome and the store are the same whatever [options.signal] is. *)
Theorem useAbort_ignores_caller_signal endpoint sig1 sig2 w s :
  perform (Get endpoint (Some {| signal := sig1; useAbort := Some true |})) w s =
  perform (Get endpoint (Some {| signal := sig2; useAbort := Some true |})) w s.
Proof.
  simpl. unfold ApiFetch.doGet, ApiFetch.bind.
  rewrite !enter_aborts_slot by reflexivity. reflexivity.
Qed.

(** ** Metadata *)

(** X8. The [Link] header of a received response is passed on as it is;
    the outcome has no [link] when the header is missing or empty. *)
Theorem link_passed_verbatim op w s response :
  answers w (Return response) ->
  serialisable JSON_stringify op ->
  exists r,
    resolved (perform op w s) = Some r /\
    (forall l, Headers_get (Response.headers response) "Link" = Some l ->
               l <> EmptyString -> IApiResponse.link r = Some l) /\
    (Headers_get (Response.headers response) "Link" = Some EmptyString ->
     IApiResponse.link r = None) /\
    (Headers_get (Response.headers response) "Link" = None ->
     IApiResponse.link r = None).
Proof.
  intros Hw Hs.
  destruct (perform_settled JSON_stringify Date_getTime config op w s _ Hw Hs)
    as (s0 & H & _).
  destruct (received_metadata Date_getTime response (bodyType op) (now w) s0)
    as (r & Hr & _ & _ & Hl & _).
  exists r. split.
  { unfold resolved. rewrite H, request_run, Hr. reflexivity. }
  rewrite Hl. repeat split.
  - intros l -> Hne. destruct l; [contradiction Hne|]; reflexivity.
  - intros ->. reflexivity.
  - intros ->. reflexivity.
Qed.

Lemma skew_number response now v : skew response now = Some v -> isNaN v = false.
Proof.
  unfold Vocabulary.skew.
  destruct (truthy (Headers_get (Response.headers response) "Date")) as [d|];
    [|discriminate].
  destruct (Date_getTime d); [discriminate|]. intros H. inversion H. reflexivity.
Qed.




(** The cache after a request: the skew of the response, if it has one. *)
Lemma request_cached c type now s0 :
  cached (snd (request c type now s0)) =
  match observed Date_getTime c now with Some d => d | None => cached s0 end.
Proof.
  rewrite request_run. destruct c as [response|e]; [|reflexivity].
  destruct (handleResponse_resolves Date_getTime response type now s0) as [r ->].
  simpl. apply cached_cache.
Qed.

(** X10. The cached skew is never [NaN]: not on a fresh instance, and not
    after any series of calls, whatever the transport answers. *)
Theorem cached_skew_is_a_number (calls : list (Operation File Body * World File)) :
  isNaN (cached (performAll JSON_stringify Date_getTime config calls ApiFetch.init)) = false.
Proof.
  assert (H : forall s, isNaN (cached s) = false ->
            isNaN (cached (performAll JSON_stringify Date_getTime config calls s)) = false).
  { induction calls as [|[op w] calls IH]; intros s Hs; [exact Hs|].
    simpl. apply IH.
    destruct (perform_request JSON_stringify Date_getTime config op w s)
      as (c & s0 & _ & H0 & -> & _).
    rewrite request_cached.
    destruct (observed Date_getTime c (now w)) as [d|] eqn:E.
    - destruct c as [response|e]; [|discriminate E].
      apply (skew_number response (now w) d E).
    - rewrite H0. exact Hs. }
  apply H. reflexivity.
Qed.


(** ** The auto-cancel slot *)

Lemma cache_abortState o s : abortState (cache o s) = abortState s.
Proof. destruct o; reflexivity. Qed.

Lemma request_abortState c type now s0 :
  abortState (snd (request c type now s0)) = abortState s0.
Proof.
  rewrite request_run. destruct c as [response|e]; [|reflexivity].
  destruct (handleResponse_resolves Date_getTime response type now s0) as [r ->].
  apply cache_abortState.
Qed.

(** What settling a call does to the slot: an auto-cancel call empties it,
    any other call leaves it; no controller is created or aborted. *)
Lemma settle_abortState endpoint sig options (w : World File) s :
  abortState
    (snd (ApiFetch.try_finally (ApiFetch.doGet_try Date_getTime config endpoint sig w)
            (ApiFetch.doGet_finally options) s)) =
  ((if usesAbort options then None else ApiFetch.controller (ApiFetch.this s)),
   ApiFetch.allocated s, ApiFetch.aborted s).
Proof.
  pose proof (request_abortState
                (fetch w (ApiFetch.composeUrl config endpoint)
                   (ApiFetch.init_ "GET" [] None sig)) json (now w) s) as H.
  change (request (fetch w (ApiFetch.composeUrl config endpoint)
                     (ApiFetch.init_ "GET" [] None sig)) json (now w))
    with (ApiFetch.doGet_try Date_getTime config endpoint sig w) in H.
  unfold ApiFetch.try_finally, ApiFetch.doGet_finally.
  destruct (ApiFetch.doGet_try Date_getTime config endpoint sig w s) as [c s1].
  unfold abortState in *. simpl in H. inversion H.
  destruct (usesAbort options); reflexivity.
Qed.

(** What an operation does to the slot. *)
Lemma perform_abortState op w s :
  abortState (snd (perform op w s)) =
  match op with
  | Get _ options =>
      if usesAbort options then
        (None, S (ApiFetch.allocated s),
         match ApiFetch.controller (ApiFetch.this s) with
         | Some c => c :: ApiFetch.aborted s
         | None => ApiFetch.aborted s
         end)
      else abortState s
  | _ => abortState s
  end.
Proof.
  destruct op as [endpoint options|endpoint|endpoint body signal|endpoint body
                 |endpoint|endpoint body|endpoint file]; simpl.
  - unfold ApiFetch.doGet, ApiFetch.bind.
    destruct (usesAbort options) eqn:Hu.
    + rewrite (enter_aborts_slot options s Hu), settle_abortState, Hu. reflexivity.
    + destruct (manual_call_leaves_slot options s Hu) as [-> _].
      rewrite settle_abortState, Hu. reflexivity.
  - apply (request_abortState _ text).
  - unfold ApiFetch.doPost. rewrite request_after_stringify.
    destruct (JSON_stringify body); [apply request_abortState|reflexivity].
  - unfold ApiFetch.doPut. rewrite request_after_stringify.
    destruct (JSON_stringify body); [apply request_abortState|reflexivity].
  - apply (request_abortState _ json).
  - unfold ApiFetch.doPatch. rewrite request_after_stringify.
    destruct (JSON_stringify body); [apply request_abortState|reflexivity].
  - apply (request_abortState _ json).
Qed.

(** X12. When every call settles before the next one is made, no
    controller is ever aborted and the slot is empty between calls,
    whichever operations are called and with whatever options. *)
Theorem sequential_calls_abort_nothing (calls : list (Operation File Body * World File)) :
  ApiFetch.aborted (performAll JSON_stringify Date_getTime config calls ApiFetch.init) = [] /\
  ApiFetch.controller
    (ApiFetch.this (performAll JSON_stringify Date_getTime config calls ApiFetch.init)) = None.
Proof.
  assert (H : forall s, ApiFetch.controller (ApiFetch.this s) = None ->
            ApiFetch.aborted (performAll JSON_stringify Date_getTime config calls s)
            = ApiFetch.aborted s /\
            ApiFetch.controller
              (ApiFetch.this (performAll JSON_stringify Date_getTime config calls s)) = None).
  { induction calls as [|[op w] calls IH]; intros s Hs; [auto|].
    simpl. pose proof (perform_abortState op w s) as H.
    assert (Hidle : ApiFetch.controller (ApiFetch.this (snd (perform op w s))) = None /\
                    ApiFetch.aborted (snd (perform op w s)) = ApiFetch.aborted s).
    { unfold abortState in H. rewrite Hs in H.
      destruct op as [endpoint options| | | | | |];
        try (inversion H; auto; fail).
      destruct (usesAbort options); inversion H; auto. }
    destruct Hidle as [Hc Ha]. destruct (IH _ Hc) as [IH1 IH2].
    rewrite IH1, Ha. auto. }
  apply (H ApiFetch.init). reflexivity.
Qed.

(** ** Overlapping calls *)

#[local] Abbreviation step := (@step File Date_getTime config).
#[local] Abbreviation run := (@run File Date_getTime config).

Lemma lookup_app {A} k (l : list (nat * A)) j v :
  lookup k (l ++ [(j, v)]) =
  match lookup k l with
  | Some x => Some x
  | None => if (j =? k)%nat then Some v else None
  end.
Proof.
  induction l as [|[i x] l IH]; simpl; [reflexivity|].
  destruct (i =? k)%nat; [reflexivity|exact IH].
Qed.

Lemma lookup_remove {A} k call (l : list (nat * A)) :
  lookup k l = None -> lookup k (remove call l) = None.
Proof.
  induction l as [|[i x] l IH]; simpl; [reflexivity|].
  destruct (i =? k)%nat eqn:E; [discriminate|]. intros H.
  destruct (negb (i =? call)%nat); simpl; [rewrite E|]; auto.
Qed.

(** Issuing a call, spelled out. *)
Lemma step_issue pg endpoint options :
  step pg (Issue endpoint options) =
  {| store := snd (ApiFetch.doGet_enter options (store pg));
     issued := S (issued pg);
     inflight := inflight pg ++
       [(issued pg, Build_Pending endpoint options
                      (signalOf (File := unit) (Body := unit)
                         (Get endpoint options) (store pg)))];
     settled := settled pg |}.
Proof.
  simpl. destruct (usesAbort options) eqn:Hu.
  - rewrite (enter_aborts_slot options (store pg) Hu). reflexivity.
  - destruct (manual_call_leaves_slot options (store pg) Hu) as [-> _]. reflexivity.
Qed.

Lemma enter_abortState options s :
  abortState (snd (ApiFetch.doGet_enter options s)) =
  if usesAbort options then
    (Some (ApiFetch.allocated s), S (ApiFetch.allocated s),
     match ApiFetch.controller (ApiFetch.this s) with
     | Some c => c :: ApiFetch.aborted s
     | None => ApiFetch.aborted s
     end)
  else abortState s.
Proof.
  destruct (usesAbort options) eqn:Hu.
  - rewrite (enter_aborts_slot options s Hu). reflexivity.
  - destruct (manual_call_leaves_slot options s Hu) as [-> _]. reflexivity.
Qed.

Lemma step_ordered pg ev : ordered pg -> ordered (step pg ev).
Proof.
  intros (Hk & Ha & Hc). destruct ev as [endpoint options|call outcome now].
  - rewrite step_issue. unfold ordered. cbn [store issued inflight].
    pose proof (enter_abortState options (store pg)) as E.
    unfold abortState in E.
    destruct (usesAbort options); injection E as E1 E2 E3; rewrite E1, E2, E3.
    + split; [|split].
      * intros k Hle. rewrite lookup_app, Hk by lia.
        destruct (Nat.eqb_spec (issued pg) k); [lia|reflexivity].
      * intros c Hin.
        destruct (ApiFetch.controller (ApiFetch.this (store pg))) as [c0|] eqn:Ec.
        -- destruct Hin as [<-|Hin]; [specialize (Hc c0 eq_refl)|specialize (Ha c Hin)]; lia.
        -- specialize (Ha c Hin). lia.
      * intros c Hs. inversion Hs. lia.
    + split; [|split].
      * intros k Hle. rewrite lookup_app, Hk by lia.
        destruct (Nat.eqb_spec (issued pg) k); [lia|reflexivity].
      * exact Ha.
      * exact Hc.
  - simpl. destruct (lookup call (inflight pg)) as [p|];
      [|exact (conj Hk (conj Ha Hc))].
    pose proof (settle_abortState (endpoint_ p) (signal_ p) (options_ p)
                  {| fetch := fun _ (_ : RequestInit.t File) => outcome; now := now |}
                  (store pg)) as E.
    destruct (ApiFetch.try_finally _ _ (store pg)) as [r s1].
    unfold ordered. cbn [store issued inflight].
    unfold abortState in E. cbn [snd] in E. injection E as E1 E2 E3.
    rewrite E1, E2, E3. split; [|split].
    + intros k Hle. apply lookup_remove, Hk, Hle.
    + exact Ha.
    + destruct (usesAbort (options_ p)); [discriminate|exact Hc].
Qed.

Lemma run_ordered events pg : ordered pg -> ordered (run events pg).
Proof.
  revert pg. induction events as [|ev events IH]; intros pg H; [exact H|].
  simpl. apply IH, step_ordered, H.
Qed.

Lemma start_ordered : ordered start.
Proof.
  split; [|split]; simpl; intros; [reflexivity|contradiction|discriminate].
Qed.

Lemma existsb_fresh c (l : list nat) :
  (forall x, In x l -> (x < c)%nat) -> existsb (Nat.eqb c) l = false.
Proof.
  induction l as [|x l IH]; intros H; [reflexivity|].
  simpl. rewrite IH by (intros y Hy; apply H; right; exact Hy).
  destruct (Nat.eqb_spec c x) as [->|]; [|reflexivity].
  specialize (H x (or_introl eq_refl)). lia.
Qed.

(** X13. After any history of calls, two auto-cancel GETs issued one right
    after the other: the second cancels the first, gets a controller of
    its own and is not cancelled itself. *)
Theorem second_auto_call_cancels_first events endpoint1 options1 endpoint2 options2 :
  usesAbort options1 = true ->
  usesAbort options2 = true ->
  let before := run events start in
  let after :=
    step (step before (Issue endpoint1 options1)) (Issue endpoint2 options2) in
  cancelled after (issued before) = true /\
  cancelled after (S (issued before)) = false /\
  ApiFetch.controller (ApiFetch.this (store after)) =
    Some (S (ApiFetch.allocated (store before))).
Proof.
  intros H1 H2 before after.
  destruct (run_ordered events start start_ordered) as (Hk & Ha & Hc).
  fold before in Hk, Ha, Hc.
  subst after. rewrite !step_issue. unfold cancelled.
  cbn [store issued inflight signalOf]. rewrite H1, H2.
  rewrite !lookup_app, !Hk by lia.
  rewrite Nat.eqb_refl.
  destruct (Nat.eqb_spec (issued before) (S (issued before))); [lia|].
  rewrite Nat.eqb_refl. cbn [signal_].
  rewrite !enter_aborts_slot by assumption. cbn [snd ApiFetch.this ApiFetch.controller
    ApiFetch.allocated ApiFetch.aborted ApiFetch.serverDateDiff].
  repeat split.
  - simpl. rewrite Nat.eqb_refl. reflexivity.
  - apply existsb_fresh. intros x [<-|Hin]; [lia|].
    destruct (ApiFetch.controller (ApiFetch.this (store before))) as [c0|] eqn:Ec.
    + destruct Hin as [<-|Hin]; [specialize (Hc c0 eq_refl)|specialize (Ha x Hin)]; lia.
    + specialize (Ha x Hin). lia.
Qed.

(** X14. Calls without [useAbort], in any number and settling in any
    order, never create or abort a controller and never touch the slot. *)
Theorem manual_calls_never_abort events :
  Forall manual events ->
  abortState (store (run events start)) = (None, 0%nat, []).
Proof.
  assert (H : forall pg,
            Forall (fun kp => usesAbort (options_ (snd kp)) = false) (inflight pg) ->
            Forall manual events ->
            abortState (store (run events pg)) = abortState (store pg)).
  { induction events as [|ev events IH]; intros pg Hp Hev; [reflexivity|].
    inversion Hev as [|? ? Hm Hrest]; subst. simpl.
    assert (Hstep : Forall (fun kp => usesAbort (options_ (snd kp)) = false)
                      (inflight (step pg ev)) /\
                    abortState (store (step pg ev)) = abortState (store pg)).
    { destruct ev as [endpoint options|call outcome now].
      - simpl in Hm. rewrite step_issue. cbn [store inflight]. split.
        + apply Forall_app. split; [exact Hp|]. constructor; [exact Hm|constructor].
        + rewrite enter_abortState, Hm. reflexivity.
      - simpl. destruct (lookup call (inflight pg)) as [p|] eqn:El; [|auto].
        assert (Hu : usesAbort (options_ p) = false).
        { clear - Hp El. induction (inflight pg) as [|[k q] l IHl]; [discriminate|].
          inversion Hp; subst. simpl in El.
          destruct (k =? call)%nat; [inversion El; subst; assumption|auto]. }
        pose proof (settle_abortState (endpoint_ p) (signal_ p) (options_ p)
                      {| fetch := fun _ (_ : RequestInit.t File) => outcome; now := now |}
                      (store pg)) as E.
        destruct (ApiFetch.try_finally _ _ (store pg)) as [r s1].
        cbn [store inflight]. split.
        + unfold remove. apply Forall_forall. intros x Hx.
          apply filter_In in Hx. destruct Hx as [Hx _].
          revert x Hx. apply Forall_forall. exact Hp.
        + simpl in E. rewrite E, Hu. reflexivity. }
    destruct Hstep as [Hp' Hs']. rewrite (IH _ Hp' Hrest). exact Hs'. }
  intros Hev. apply (H start); [constructor|exact Hev].
Qed.

End Further.


(** ** Instances *)

Lemma success_outcome_witness :
  resolved (perform payloadStringify mockDate base (Post "/things" (Plain "{}") None)
              (answering (Return created201) 0) ApiFetch.init) =
  Some (IApiResponse.mk true (Some 201%N) (Some (JObject [("id", JString "7")])) None
          None None (Some "<http://h/api/things?page=2>; rel=next") None).
Proof.
  apply (success_outcome (File := unit) payloadStringify mockDate base
           (Post "/things" (Plain "{}") None) (answering (Return created201) 0)
           ApiFetch.init created201 (JObject [("id", JString "7")])).
  - intros url init. reflexivity.
  - intros b Hb. inversion Hb. eexists. reflexivity.
  - discriminate.
  - reflexivity.
  - reflexivity.
Defined.

Lemma no_content_outcome_witness :
  resolved (perform payloadStringify mockDate base (Delete "/things/7")
              (answering (Return noContent204) 0) ApiFetch.init) =
  Some (IApiResponse.mk true (Some 204%N) None None (Some (Num 3)) None None None).
Proof.
  apply (no_content_outcome (File := unit) payloadStringify mockDate base
           (Delete "/things/7") (answering (Return noContent204) 0)
           ApiFetch.init noContent204).
  - intros url init. reflexivity.
  - intros b Hb. discriminate Hb.
  - reflexivity.
Defined.

Lemma ok_exactly_when_witness :
  exists r,
    resolved (perform payloadStringify mockDate base (Get "/things" None)
                (answering (Return garbled200) 0) ApiFetch.init) = Some r /\
    IApiResponse.ok r <> true.
Proof.
  destruct (ok_exactly_when (File := unit) payloadStringify mockDate base
              (Get "/things" None) (answering (Return garbled200) 0) ApiFetch.init
              (Return garbled200)) as (r & Hr & Hok).
  - intros url init. reflexivity.
  - intros b Hb. discriminate Hb.
  - exists r. split; [exact Hr|]. intros H. apply Hok in H.
    destruct H as (response & E & [H204|[_ [d Hd]]]); inversion E; subst response;
      discriminate.
Defined.

Lemma stringify_failure_makes_no_request_witness :
  perform payloadStringify mockDate base (Put "/things/7" Cyclic)
    (answering (Return created201) 0) ApiFetch.init =
  perform payloadStringify mockDate base (Put "/things/7" Cyclic)
    (answering (Throw AbortError) 5) ApiFetch.init.
Proof.
  apply (stringify_failure_makes_no_request (File := unit) payloadStringify mockDate base
           (Put "/things/7" Cyclic) Cyclic
           (ErrorObj "TypeError" "Converting circular structure to JSON")
           eq_refl eq_refl).
Defined.


Lemma link_passed_verbatim_witness :
  exists r,
    resolved (perform payloadStringify mockDate base (Post "/things" (Plain "{}") None)
                (answering (Return created201) 0) ApiFetch.init) = Some r /\
    IApiResponse.link r = Some "<http://h/api/things?page=2>; rel=next".
Proof.
  destruct (link_passed_verbatim (File := unit) payloadStringify mockDate base
              (Post "/things" (Plain "{}") None) (answering (Return created201) 0)
              ApiFetch.init created201) as (r & Hr & Hl & _).
  - intros url init. reflexivity.
  - intros b Hb. inversion Hb. eexists. reflexivity.
  - exists r. split; [exact Hr|]. apply Hl; [reflexivity|discriminate].
Defined.


Lemma second_auto_call_cancels_first_witness :
  cancelled (run (File := unit) mockDate base
               [Issue "/search?q=a" None; Issue "/search?q=ab" auto;
                Issue "/search?q=abc" auto] start) 1 = true.
Proof.
  apply (second_auto_call_cancels_first (File := unit) mockDate base
           [Issue "/search?q=a" None] "/search?q=ab" auto "/search?q=abc" auto
           eq_refl eq_refl).
Defined.

Lemma manual_calls_never_abort_witness :
  abortState
    (store (run (File := unit) mockDate base
              [Issue "/a" None;
               Issue "/b" (Some {| signal := Some (CallerSignal 9); useAbort := Some false |});
               Settle 1 (Throw AbortError) 0;
               Settle 0 (Return things200) 0] start)) = (None, 0%nat, []).
Proof.
  apply (manual_calls_never_abort (File := unit) mockDate base).
  repeat constructor.
Defined.


(** * Properties of the translations *)

Lemma length_append a b : String.length (a ++ b) = (String.length a + String.length b)%nat.
Proof.
  induction a as [|c a IH]; [reflexivity|]. cbn [append String.length]. rewrite IH. reflexivity.
Qed.

Lemma wordPrefix_app w r :
  wordChars w = true ->
  match r with String c _ => I18n.isWord c = false | EmptyString => True end ->
  I18n.wordPrefix (w ++ r) = (w, r).
Proof.
  intros Hw Hr. induction w as [|c w IH].
  - destruct r as [|c r]; [reflexivity|]. cbn [append I18n.wordPrefix]. rewrite Hr. reflexivity.
  - cbn [wordChars] in Hw. apply andb_prop in Hw as [Hc Hw].
    cbn [append I18n.wordPrefix]. rewrite Hc, (IH Hw). reflexivity.
Qed.

Lemma placeholder_at name rest :
  word name = true ->
  I18n.placeholder ("{{" ++ name ++ "}}" ++ rest) = Some (name, rest).
Proof.
  intros Hw. destruct name as [|c name]; [discriminate|].
  cbn [word] in Hw.
  change ("{{" ++ String c name ++ "}}" ++ rest)
    with (String "{" (String "{" (String c name ++ String "}" (String "}" rest)))).
  cbv beta iota delta [I18n.placeholder].
  rewrite (wordPrefix_app (String c name) (String "}" (String "}" rest)) Hw eq_refl).
  reflexivity.
Qed.

Lemma placeholder_other c rest : c <> "{"%char -> I18n.placeholder (String c rest) = None.
Proof.
  intros N. destruct c as [[] [] [] [] [] [] [] []]; try reflexivity.
  contradiction N; reflexivity.
Qed.

Lemma replace_skip f a b :
  I18n.replacePlaceholders f (a ++ b) (String.length a) = I18n.replacePlaceholders f b 0.
Proof.
  induction a as [|c a IH]; [destruct b; reflexivity|].
  cbn [append String.length I18n.replacePlaceholders]. exact IH.
Qed.

Lemma replace_step f c rest :
  I18n.replacePlaceholders f (String c rest) 0 =
  match I18n.placeholder (String c rest) with
  | Some (varName, _) =>
      f varName ++ I18n.replacePlaceholders f rest (String.length varName + 3)
  | None => String c (I18n.replacePlaceholders f rest 0)
  end.
Proof. reflexivity. Qed.

Lemma replace_placeholder f name rest :
  word name = true ->
  I18n.replacePlaceholders f ("{{" ++ name ++ "}}" ++ rest) 0 =
  f name ++ I18n.replacePlaceholders f rest 0.
Proof.
  intros Hw. pose proof (placeholder_at name rest Hw) as Hp.
  change ("{{" ++ name ++ "}}" ++ rest)
    with (String "{" (String "{" (name ++ "}}" ++ rest))) in *.
  rewrite replace_step, Hp. f_equal.
  assert (String "{" (name ++ "}}" ++ rest) = String "{" (name ++ "}}") ++ rest) as ->
    by (cbn [append]; rewrite append_assoc; reflexivity).
  assert ((String.length name + 3)%nat = String.length (String "{" (name ++ "}}"))) as ->
    by (cbn [String.length]; rewrite length_append; cbn [String.length]; lia).
  exact (replace_skip f (String "{" (name ++ "}}")) rest).
Qed.

Lemma replace_prefix f p s :
  has "{" p = false ->
  I18n.replacePlaceholders f (p ++ s) 0 = p ++ I18n.replacePlaceholders f s 0.
Proof.
  induction p as [|c p IH]; intros Hp; [reflexivity|].
  rewrite has_cons in Hp. apply orb_false_elim in Hp as [Hc Hp].
  cbn [append I18n.replacePlaceholders].
  rewrite placeholder_other by (intros ->; discriminate).
  rewrite (IH Hp). reflexivity.
Qed.

Lemma replace_plain f s : plain s = true -> I18n.replacePlaceholders f s 0 = s.
Proof.
  induction s as [|c s IH]; intros Hp; [reflexivity|].
  cbn [plain] in Hp. cbn [I18n.replacePlaceholders].
  destruct (I18n.placeholder (String c s)); [discriminate|].
  rewrite (IH Hp). reflexivity.
Qed.

Lemma own_listed {A : Type} (o : I18n.Dict A) k :
  I18n.own o k = None <-> ~ In k (map fst o).
Proof.
  induction o as [|[k' v] o IH]; cbn [I18n.own map fst In].
  - split; [intros _ []|reflexivity].
  - destruct (String.eqb_spec k' k) as [->|N].
    + split; [discriminate|]. intros H. contradiction H. left. reflexivity.
    + rewrite IH. split; [intros H [E|I]; [contradiction|contradiction]|].
      intros H I. apply H. right. exact I.
Qed.

Section Translations.

Variable translations : I18n.Dict (I18n.Dict string).
Variable foreign : string -> string -> completion I18n.value.
Variable inheritedText : string -> string.

#[local] Abbreviation tt := (I18n.tt translations foreign inheritedText).
#[local] Abbreviation variable := (I18n.variable inheritedText).

(** X16.  A translation without a placeholder is returned as it is, with or
    without variables: text in braces that is not [{{name}}] with a name of
    word characters, such as [{{ name }}] or [{x}], is no placeholder. *)
Theorem tt_plain_template lang table key t opts :
  I18n.get translations lang = I18n.Own table ->
  I18n.get table key = I18n.Own t ->
  t <> EmptyString ->
  plain t = true ->
  tt lang key opts = Return (I18n.Str t).
Proof.
  intros Hl Hk Ht Hp. unfold I18n.tt, I18n.entry. rewrite Hl, Hk.
  destruct t as [|c t]; [contradiction Ht; reflexivity|].
  cbn [I18n.isTruthy]. destruct opts as [o|]; [|reflexivity].
  rewrite (replace_plain _ _ Hp). reflexivity.
Qed.

(** X17.  The first placeholder of a translation is replaced by the value of
    its variable, or by nothing when the variables have no such name; the
    value is not scanned again, and the rest of the text is treated alike. *)
Theorem tt_substitutes lang table key p name q opts :
  I18n.get translations lang = I18n.Own table ->
  I18n.get table key = I18n.Own (p ++ "{{" ++ name ++ "}}" ++ q) ->
  has "{" p = false ->
  word name = true ->
  tt lang key (Some opts) =
  Return (I18n.Str (p ++ variable opts name
                      ++ I18n.replacePlaceholders (variable opts) q 0)) /\
  (I18n.get opts name = I18n.Missing -> variable opts name = EmptyString) /\
  (forall v, I18n.get opts name = I18n.Own v -> variable opts name = v).
Proof.
  intros Hl Hk Hp Hw. split; [|split].
  - unfold I18n.tt, I18n.entry. rewrite Hl, Hk.
    assert (I18n.isTruthy (I18n.Str (p ++ "{{" ++ name ++ "}}" ++ q)) = true) as ->
      by (destruct p; reflexivity).
    rewrite (replace_prefix _ _ _ Hp), (replace_placeholder _ _ _ Hw). reflexivity.
  - intros E. unfold I18n.variable. rewrite E. reflexivity.
  - intros v E. unfold I18n.variable. rewrite E. reflexivity.
Qed.

(** X18.  Without a translation (unknown language, unknown key or empty
    text) [tt] gives the key back; with variables the key itself goes
    through the interpolation. *)
Theorem tt_falls_back_to_key lang key :
  untranslated translations lang key ->
  tt lang key None = Return (I18n.Str key) /\
  forall opts,
    tt lang key (Some opts) =
    Return (I18n.Str (I18n.replacePlaceholders (variable opts) key 0)).
Proof.
  unfold untranslated, I18n.tt, I18n.entry. intros H.
  destruct (I18n.get translations lang) as [table| |]; [|contradiction|].
  - destruct (I18n.get table key) as [t| |]; [subst t| contradiction |];
      split; reflexivity.
  - split; reflexivity.
Qed.

(** X19.  A key that names a member of [Object.prototype] and has no
    translation is not a string: without variables [tt] returns the member,
    with variables it throws a [TypeError]. *)
Theorem tt_inherited_key lang table key :
  I18n.get translations lang = I18n.Own table ->
  I18n.own table key = None ->
  I18n.inherited key = true ->
  tt lang key None = Return (I18n.Other true) /\
  forall opts,
    tt lang key (Some opts) =
    Throw (ErrorObj "TypeError" "template.replace is not a function").
Proof.
  intros Hl Ho Hi. unfold I18n.tt, I18n.entry, I18n.get at 2. rewrite Hl.
  unfold I18n.get. rewrite Ho, Hi. split; reflexivity.
Qed.

Lemma setLanguage_listed lang currentLang :
  In currentLang (I18n.getAvailableLanguages translations) ->
  I18n.inherited lang = false ->
  In (I18n.setLanguage translations lang currentLang)
     (I18n.getAvailableLanguages translations).
Proof.
  intros Hc Hi. unfold I18n.setLanguage, I18n.get. rewrite Hi.
  destruct (I18n.own translations lang) as [table|] eqn:E; [|exact Hc].
  destruct (in_dec string_dec lang (map fst translations)) as [I|N]; [exact I|].
  apply own_listed in N. congruence.
Qed.

(** X20.  Starting from a listed language, any series of [setLanguage] calls
    with names that are not members of [Object.prototype] leaves a language
    of [getAvailableLanguages] current: an unknown name changes nothing. *)
Theorem language_stays_available langs :
  In I18n.initialLang (I18n.getAvailableLanguages translations) ->
  Forall (fun lang => I18n.inherited lang = false) langs ->
  In (I18n.getCurrentLanguage (languageAfter translations langs))
     (I18n.getAvailableLanguages translations).
Proof.
  unfold languageAfter, I18n.getCurrentLanguage.
  generalize I18n.initialLang as cur. intros cur Hc Hl. revert cur Hc.
  induction Hl as [|lang langs Hi _ IH]; intros cur Hc; [exact Hc|].
  cbn [fold_left]. apply IH. apply setLanguage_listed; assumption.
Qed.


End Translations.

(** ** Instances *)

Lemma tt_plain_template_witness :
  I18n.tt greetings noForeign functionText "en" "BRACES" (Some [("name", "Ann")]) =
  Return (I18n.Str "{{ name }} {x}").
Proof.
  apply (tt_plain_template greetings noForeign functionText "en" _ "BRACES"
           "{{ name }} {x}" (Some [("name", "Ann")]) eq_refl eq_refl).
  - discriminate.
  - reflexivity.
Defined.

Lemma tt_substitutes_witness :
  I18n.tt I18n.translations noForeign functionText "it" "SM.OUTBOUND.CAMPAIGN.SELECTED"
    (Some [("name", "{{name}}")]) = Return (I18n.Str "Selezionata: {{name}}").
Proof.
  apply (tt_substitutes I18n.translations noForeign functionText "it" _
           "SM.OUTBOUND.CAMPAIGN.SELECTED" "Selezionata: " "name" EmptyString
           [("name", "{{name}}")] eq_refl eq_refl eq_refl eq_refl).
Defined.

Lemma tt_falls_back_to_key_witness :
  I18n.tt I18n.translations noForeign functionText "fr" "Hi {{who}}" None =
  Return (I18n.Str "Hi {{who}}") /\
  I18n.tt I18n.translations noForeign functionText "en" "Hi {{who}}" (Some [("who", "Bo")]) =
  Return (I18n.Str "Hi Bo").
Proof.
  split.
  - apply (tt_falls_back_to_key I18n.translations noForeign functionText "fr" "Hi {{who}}" I).
  - apply (tt_falls_back_to_key I18n.translations noForeign functionText "en" "Hi {{who}}" I).
Defined.

Lemma tt_inherited_key_witness :
  I18n.tt I18n.translations noForeign functionText "en" "constructor" (Some []) =
  Throw (ErrorObj "TypeError" "template.replace is not a function").
Proof.
  apply (tt_inherited_key I18n.translations noForeign functionText "en" _ "constructor"
           eq_refl eq_refl eq_refl).
Defined.

Lemma language_stays_available_witness :
  In (I18n.getCurrentLanguage (languageAfter I18n.translations ["it"; "fr"; "de"]))
     (I18n.getAvailableLanguages I18n.translations).
Proof.
  apply (language_stays_available I18n.translations ["it"; "fr"; "de"]).
  - left. reflexivity.
  - repeat constructor.
Defined.


(** * Properties of the campaign service *)

Section Service.

Import Outbound.

(** X22.  [loadCampaigns] never rejects, whatever the adapter does, a
    rejection included; the loading flag emits [true] and then [false] and
    ends [false], the list emits once, and the selection is not touched. *)
Theorem loadCampaigns_settles apiFetch svc :
  fst (loadCampaigns apiFetch svc) = Return tt /\
  BehaviorSubject.value (loading (snd (loadCampaigns apiFetch svc))) = false /\
  BehaviorSubject.emitted (loading (snd (loadCampaigns apiFetch svc))) =
    (BehaviorSubject.emitted (loading svc) ++ [true; false])%list /\
  selectedCampaign (snd (loadCampaigns apiFetch svc)) = selectedCampaign svc /\
  BehaviorSubject.emitted (campaigns (snd (loadCampaigns apiFetch svc))) =
    (BehaviorSubject.emitted (campaigns svc)
     ++ [BehaviorSubject.value (campaigns (snd (loadCampaigns apiFetch svc)))])%list.
Proof.
  unfold loadCampaigns, loadCampaigns_settle, loadCampaigns_enter.
  destruct (doGet apiFetch "/campaigns") as [[[] [d|] e]|e]; cbn;
    rewrite <- app_assoc; repeat split; reflexivity.
Qed.

(** X23.  When the load fails (the adapter rejects, the reply is not [ok],
    or it has no data) the list becomes empty and one error is logged, but
    a selected campaign stays selected: it is then no campaign of the list. *)
Theorem failed_load_empties_list apiFetch svc :
  failed (doGet apiFetch "/campaigns") ->
  BehaviorSubject.value (campaigns (snd (loadCampaigns apiFetch svc))) = [] /\
  (exists args,
     logger (snd (loadCampaigns apiFetch svc)) =
     (logger svc ++ [(Debug, [Text "Loading campaigns..."]); (Error, args)])%list) /\
  (BehaviorSubject.value (selectedCampaign svc) <> None ->
   ~ consistent (snd (loadCampaigns apiFetch svc))).
Proof.
  unfold loadCampaigns, loadCampaigns_settle, loadCampaigns_enter, failed, consistent.
  intros H.
  assert (forall s : option Campaign.t, s <> None ->
            ~ match s with Some c => In c [] | None => True end) as Hsel
    by (intros [c|] N; [intros []|contradiction N; reflexivity]).
  destruct (doGet apiFetch "/campaigns") as [[[] [d|] e]|e]; cbn in *;
    try (destruct H; discriminate);
    (split; [reflexivity|split; [eexists; rewrite <- app_assoc; reflexivity|apply Hsel]]).
Qed.

Lemma find_first {A : Type} (f : A -> bool) pre c post :
  (forall x, In x pre -> f x = false) -> f c = true ->
  find f (pre ++ c :: post)%list = Some c.
Proof.
  intros Hpre Hc. induction pre as [|x pre IH]; cbn [app find].
  - rewrite Hc. reflexivity.
  - rewrite (Hpre x (or_introl eq_refl)). apply IH. intros y I. apply Hpre. right. exact I.
Qed.

(** X24.  After [selectCampaign id] the selection is the first campaign of
    the list with that id; when no campaign has it the selection is
    cleared, whatever was selected before.  The list is not touched. *)
Theorem selectCampaign_selects id svc :
  consistent (selectCampaign id svc) /\
  campaigns (selectCampaign id svc) = campaigns svc /\
  match BehaviorSubject.value (selectedCampaign (selectCampaign id svc)) with
  | Some c => Campaign.id c = id
  | None => forall c, In c (BehaviorSubject.value (campaigns svc)) -> Campaign.id c <> id
  end /\
  forall pre c post,
    BehaviorSubject.value (campaigns svc) = (pre ++ c :: post)%list ->
    (forall x, In x pre -> Campaign.id x <> id) ->
    Campaign.id c = id ->
    BehaviorSubject.value (selectedCampaign (selectCampaign id svc)) = Some c.
Proof.
  unfold selectCampaign, consistent.
  assert (forall pre c post,
            BehaviorSubject.value (campaigns svc) = (pre ++ c :: post)%list ->
            (forall x, In x pre -> Campaign.id x <> id) ->
            Campaign.id c = id ->
            find (fun c => (Campaign.id c =? id)%string)
                 (BehaviorSubject.value (campaigns svc)) = Some c) as Hfirst.
  { intros pre c post E Hpre Hc. rewrite E. apply find_first.
    - intros x I. apply String.eqb_neq. apply Hpre. exact I.
    - apply String.eqb_eq. exact Hc. }
  destruct (find _ _) as [c|] eqn:E; cbn.
  - pose proof E as E'. apply find_some in E' as [I Hid]. apply String.eqb_eq in Hid.
    split; [exact I|split; [reflexivity|split; [exact Hid|]]].
    intros pre c' post El Hpre Hc. specialize (Hfirst pre c' post El Hpre Hc). congruence.
  - split; [exact I|split; [reflexivity|split]].
    + intros c I'. apply (find_none _ _ E) in I'. apply String.eqb_neq. exact I'.
    + intros pre c' post El Hpre Hc. specialize (Hfirst pre c' post El Hpre Hc). congruence.
Qed.

Lemma replaced_In id (u x : Campaign.t) l :
  In x l ->
  In (if (Campaign.id x =? id)%string then u else x)
     (map (fun c => if (Campaign.id c =? id)%string then u else c) l).
Proof.
  intros I. apply (in_map (fun c => if (Campaign.id c =? id)%string then u else c)) in I.
  exact I.
Qed.

(** X25.  [startCampaign] and [pauseCampaign] keep the selection a campaign
    of the list, whatever the reply, even one for another campaign; the
    list keeps its length, and the campaigns with another id keep their
    places. *)
Theorem command_keeps_selection_consistent cmd id c svc :
  consistent svc ->
  consistent (snd (settle cmd id c svc)) /\
  List.length (BehaviorSubject.value (campaigns (snd (settle cmd id c svc)))) =
    List.length (BehaviorSubject.value (campaigns svc)) /\
  forall n x,
    nth_error (BehaviorSubject.value (campaigns svc)) n = Some x ->
    Campaign.id x <> id ->
    nth_error (BehaviorSubject.value (campaigns (snd (settle cmd id c svc)))) n = Some x.
Proof.
  intros Hc.
  assert (forall u n x,
            nth_error (BehaviorSubject.value (campaigns svc)) n = Some x ->
            Campaign.id x <> id ->
            nth_error (map (fun c => if (Campaign.id c =? id)%string then u else c)
                         (BehaviorSubject.value (campaigns svc))) n = Some x) as Hnth.
  { intros u n x E N. rewrite nth_error_map, E. cbn.
    apply String.eqb_neq in N. rewrite N. reflexivity. }
  unfold consistent in *.
  destruct cmd; cbn [settle]; unfold startCampaign_settle, pauseCampaign_settle;
    (destruct c as [[[] [u|] e]|e]; cbn [Reply.ok Reply.data fst snd];
     [|cbn; auto..]);
    (destruct (BehaviorSubject.value (selectedCampaign svc)) as [sel|] eqn:Es;
     cbn [campaigns_next selectedCampaign campaigns BehaviorSubject.value];
     rewrite ?Es;
     [destruct (Campaign.id sel =? id)%string eqn:Eid;
      cbn; rewrite ?Es, ?length_map; (split; [|split; [reflexivity|apply Hnth]]);
      pose proof (replaced_In id u sel _ Hc) as I; rewrite Eid in I; exact I
     |cbn; rewrite ?Es, ?length_map; (split; [exact I|split; [reflexivity|apply Hnth]])]).
Qed.

(** X26.  A command that fails changes no subject and emits nothing; it
    resolves to [false], except that a rejection of the adapter is passed
    on to the caller: there is no [try] around the call, unlike in
    [loadCampaigns]. *)
Theorem command_failure_changes_nothing cmd id c svc :
  failed c ->
  subjects (snd (settle cmd id c svc)) = subjects svc /\
  fst (settle cmd id c svc) =
    match c with
    | Throw e => Throw e
    | Return _ => Return false
    end.
Proof.
  unfold failed. intros H.
  destruct cmd; cbn [settle]; unfold startCampaign_settle, pauseCampaign_settle;
    destruct c as [[[] [u|] e]|e]; cbn in *;
    try (destruct H; discriminate); split; reflexivity.
Qed.

(** X27.  The service never sets the status of a campaign itself: after the
    same reply, [startCampaign] and [pauseCampaign] give the same result and
    leave the same subjects; they differ in the path and in the log. *)
Theorem commands_differ_only_in_log id c svc :
  fst (startCampaign_settle id c svc) = fst (pauseCampaign_settle id c svc) /\
  subjects (snd (startCampaign_settle id c svc)) =
  subjects (snd (pauseCampaign_settle id c svc)).
Proof.
  unfold startCampaign_settle, pauseCampaign_settle, subjects.
  destruct c as [[[] [u|] e]|e]; cbn; split; reflexivity.
Qed.

End Service.

(** ** Instances *)

Lemma failed_load_empties_list_witness :
  ~ consistent
      (snd (Outbound.loadCampaigns
              (replying (Throw (NonError "offline")) (Throw (NonError "offline")))
              (Outbound.selectCampaign "7"
                 (Outbound.campaigns_next [campaign "7" Outbound.paused] Outbound.create)))).
Proof.
  apply (failed_load_empties_list
           (replying (Throw (NonError "offline")) (Throw (NonError "offline")))
           (Outbound.selectCampaign "7"
              (Outbound.campaigns_next [campaign "7" Outbound.paused] Outbound.create)) I).
  discriminate.
Defined.

Lemma selectCampaign_selects_witness :
  Outbound.BehaviorSubject.value
    (Outbound.selectedCampaign
       (Outbound.selectCampaign "7"
          (Outbound.campaigns_next
             [campaign "3" Outbound.active; campaign "7" Outbound.paused;
              Outbound.Campaign.mk "7" "Twin" Outbound.completed 1 1]
             Outbound.create))) = Some (campaign "7" Outbound.paused).
Proof.
  apply (selectCampaign_selects "7"
           (Outbound.campaigns_next
              [campaign "3" Outbound.active; campaign "7" Outbound.paused;
               Outbound.Campaign.mk "7" "Twin" Outbound.completed 1 1]
              Outbound.create))
    with (pre := [campaign "3" Outbound.active])
         (post := [Outbound.Campaign.mk "7" "Twin" Outbound.completed 1 1]).
  - reflexivity.
  - intros x [<-|[]]. discriminate.
  - reflexivity.
Defined.

Lemma command_keeps_selection_consistent_witness :
  consistent
    (snd (settle Start "7"
            (Return (Outbound.Reply.mk true (Some (campaign "8" Outbound.active)) None))
            (Outbound.selectCampaign "7"
               (Outbound.campaigns_next [campaign "7" Outbound.paused] Outbound.create)))).
Proof.
  apply (command_keeps_selection_consistent Start "7"
           (Return (Outbound.Reply.mk true (Some (campaign "8" Outbound.active)) None))
           (Outbound.selectCampaign "7"
              (Outbound.campaigns_next [campaign "7" Outbound.paused] Outbound.create))).
  left. reflexivity.
Defined.

Lemma command_failure_changes_nothing_witness :
  fst (settle Pause "7" (Throw (ErrorObj "TypeError" "Failed to fetch")) Outbound.create) =
  Throw (ErrorObj "TypeError" "Failed to fetch").
Proof.
  apply (command_failure_changes_nothing Pause "7"
           (Throw (ErrorObj "TypeError" "Failed to fetch")) Outbound.create I).
Defined.
